(** * PyVisca: the VISCA protocol engine of [pyviscam]

    A shallow embedding of [pyviscam/port.py] (class [Serial]) and of the
    protocol core of [pyviscam/camera.py] (class [Camera]: [_send_packet],
    [_cmd_cam], [_come_back], [_query]), followed by the properties of the
    packet framing, of the command and query handshakes and of the reply
    decoder.

    Python 2 byte strings ([str]) are Rocq [string]s: a sequence of 8-bit
    characters.  The serial line and the mutex are an explicit state that
    every method threads through; exceptions and a blocking [acquire] are
    outcomes of a small monad. *)

From Stdlib Require Import ZArith String Ascii List Lia DecimalString.
From stdpp Require Import gmap strings.
Import ListNotations.

Open Scope string_scope.
Open Scope list_scope.
Open Scope Z_scope.

(** ** Python values and builtins *)

Inductive exn : Type :=
| AttributeError
| IndexError
| TypeError
| ValueError
| ThreadError.

(** The values the protocol engine hands back to its callers. *)
#[warnings="-register-all"]
Inductive value : Type :=
| PyNone
| PyBool (b : bool)
| PyInt (z : Z)
| PyStr (s : string)
| PyList (l : list value).

(** Truth value of an object, as tested by [if x:] and [if not x:]. *)
Definition truthy (v : value) : bool :=
  match v with
  | PyNone => false
  | PyBool b => b
  | PyInt z => negb (z =? 0)
  | PyStr s => negb (s =? "")%string
  | PyList l => match l with [] => false | _ => true end
  end.

(** [chr(i)]: the one-character string of code [i]; [ValueError] outside
    [range(256)]. *)
Definition chr (i : Z) : exn + string :=
  if (0 <=? i) && (i <? 256)
  then inr (String (ascii_of_N (Z.to_N i)) "")
  else inl ValueError.

(** [ord(c)] of a one-character string. *)
Definition ord (c : ascii) : Z := Z.of_N (N_of_ascii c).

(** The byte [i] as a character, for string constants such as ['\x90']. *)
Definition xchr (i : Z) : ascii := ascii_of_N (Z.to_N i).

(** [s[-1:]]: the last character, or the empty string. *)
Fixpoint slice_last (s : string) : string :=
  match s with
  | "" => ""
  | String c "" => String c ""
  | String _ r => slice_last r
  end.

(** [s[:-1]]: everything but the last character. *)
Fixpoint slice_init (s : string) : string :=
  match s with
  | "" => ""
  | String _ "" => ""
  | String c r => String c (slice_init r)
  end.

(** [s[n:]]. *)
Fixpoint slice_from (n : nat) (s : string) : string :=
  match n, s with
  | O, _ => s
  | S _, "" => ""
  | S n', String _ r => slice_from n' r
  end.

(** [s[:n]]. *)
Fixpoint slice_to (n : nat) (s : string) : string :=
  match n, s with
  | O, _ => ""
  | S _, "" => ""
  | S n', String c r => String c (slice_to n' r)
  end.

(** [s.startswith(p)]. *)
Definition startswith (s p : string) : bool := String.prefix p s.

Definition hex_digit (n : N) : ascii :=
  match String.get (N.to_nat n) "0123456789abcdef" with
  | Some c => c
  | None => "0"%char
  end.

(** [s.encode('hex')]: two lower-case hexadecimal digits per character. *)
Fixpoint encode_hex (s : string) : string :=
  match s with
  | "" => ""
  | String c r =>
      let n := N_of_ascii c in
      String (hex_digit (n / 16)) (String (hex_digit (n mod 16)) (encode_hex r))
  end.

Definition hex_value (c : ascii) : option Z :=
  let n := ord c in
  if (48 <=? n) && (n <=? 57) then Some (n - 48)
  else if (97 <=? n) && (n <=? 102) then Some (n - 87)
  else if (65 <=? n) && (n <=? 70) then Some (n - 55)
  else None.

Fixpoint int16_digits (acc : Z) (s : string) : option Z :=
  match s with
  | "" => Some acc
  | String c r =>
      match hex_value c with
      | Some d => int16_digits (16 * acc + d) r
      | None => None
      end
  end.

(** [int(s, 16)] on a string of hexadecimal digits, which is what
    [encode('hex')] produces; the empty string is a [ValueError].  The other
    spellings Python accepts (a sign, blanks, a [0x] prefix) never reach it
    here and are read as a [ValueError]. *)
Definition int16 (s : string) : exn + Z :=
  match s with
  | "" => inl ValueError
  | _ => match int16_digits 0 s with
         | Some z => inr z
         | None => inl ValueError
         end
  end.

(** [str(z)] of an integer. *)
Definition str_of_int (z : Z) : string := NilZero.string_of_int (Z.to_int z).

(** Modelled from the spec: [scale] of [pyviscam.convert], imported by
    [camera.py] and absent from the sources.  The spec has the decoder
    "linearly rescale" a value from its native range to a real-world range;
    on Python 2 integers the division is the floor division. *)
Definition scale (v old_min old_max new_min new_max : Z) : Z :=
  (v - old_min) * (new_max - new_min) / (old_max - old_min) + new_min.

(** ** The serial line ([pyserial]'s [serial.Serial]) *)

(** The device is a script: [rx] lists what the successive [read(1)] calls
    return, a byte or nothing (the read timed out; an exhausted script times
    out too); [in_waiting] is what [inWaiting()] reports, the number of bytes
    already sitting in the input buffer; [tx] collects what was written,
    oldest first.

    A read that returns nothing is the read of a port that has a read
    time-out, the case for which [recv_packet] has its test of an empty
    read.  The port that [Serial.open] makes has none ([timeout=None]): on it
    a read that finds no byte waits.  What is stated on a line that runs dry,
    or that holds a time-out, is therefore stated of a port with a time-out;
    on the port of [Serial.open] the call waits in [read(1)] at that point
    instead of returning.  A line that delivers every byte that is read
    behaves the same on both. *)
Record pyserial : Type := mk_pyserial {
  rx : list (option ascii);
  in_waiting : nat;
  tx : list string
}.

Definition dev_read (d : pyserial) : option ascii * pyserial :=
  match rx d with
  | [] => (None, d)
  | None :: rest => (None, mk_pyserial rest (in_waiting d) (tx d))
  | Some c :: rest => (Some c, mk_pyserial rest (Nat.pred (in_waiting d)) (tx d))
  end.

Definition dev_write (packet : string) (d : pyserial) : pyserial :=
  mk_pyserial (rx d) (in_waiting d) (tx d ++ [packet]).

(** ** class Serial (port.py) *)

(** What was done to the transport, oldest first: a ghost history. *)
Inductive event : Type :=
| Acquire
| Release
| Sent (packet : string)
| Recv (packet : option string).

Record Serial : Type := mk_Serial {
  mutex : bool;               (* [allocate_lock()]: is the lock held *)
  port : option pyserial;     (* [None] while no connection is open *)
  history : list event
}.

Inductive outcome (A : Type) : Type :=
| Returns (a : A) (s : Serial)      (* normal return *)
| Raises (e : exn) (s : Serial)     (* an uncaught exception *)
| Blocks (s : Serial)               (* [acquire] on a held lock: waits for ever *)
| OutOfFuel.                        (* the recursion bound of the model was hit *)

Arguments Returns {A} a s.
Arguments Raises {A} e s.
Arguments Blocks {A} s.
Arguments OutOfFuel {A}.

Definition M (A : Type) : Type := Serial -> outcome A.

Definition ret {A} (a : A) : M A := fun s => Returns a s.

Definition bind {A B} (m : M A) (k : A -> M B) : M B :=
  fun s =>
    match m s with
    | Returns a s' => k a s'
    | Raises e s' => Raises e s'
    | Blocks s' => Blocks s'
    | OutOfFuel => OutOfFuel
    end.

Definition raise {A} (e : exn) : M A := fun s => Raises e s.

Definition out_of_fuel {A} : M A := fun _ => OutOfFuel.

Definition lift {A} (r : exn + A) : M A :=
  match r with
  | inl e => raise e
  | inr a => ret a
  end.

#[global] Instance M_ret : MRet M := @ret.
#[global] Instance M_bind : MBind M := fun A B k m => bind m k.

Definition note (e : event) (s : Serial) : Serial :=
  mk_Serial (mutex s) (port s) (history s ++ [e]).

(** [self.mutex.acquire()]: the lock of [allocate_lock] is not reentrant. *)
Definition acquire : M unit := fun s =>
  if mutex s then Blocks s
  else Returns tt (mk_Serial true (port s) (history s ++ [Acquire])).

(** [self.mutex.release()]: releasing a free lock is an error. *)
Definition release : M unit := fun s =>
  if mutex s then Returns tt (mk_Serial false (port s) (history s ++ [Release]))
  else Raises ThreadError s.

(** The [while count<16] loop of [recv_packet]; [n] is [16 - count]. *)
Fixpoint recv_loop (n : nat) (d : pyserial) (packet : string) : string * pyserial :=
  match n with
  | O => (packet, d)
  | S n' =>
      match dev_read d with
      | (Some s, d') =>
          let byte := ord s in
          let packet := packet +:+ String (ascii_of_N (Z.to_N byte)) "" in
          if byte =? 255 then (packet, d') else recv_loop n' d' packet
      | (None, d') => (packet, d')
      end
  end.

(** [Serial.recv_packet]: up to 16 bytes, until [0xff]; [None] without a
    connection. *)
Definition recv_packet : M (option string) := fun s =>
  match port s with
  | Some d =>
      let '(packet, d') := recv_loop 16 d "" in
      Returns (Some packet)
        (mk_Serial (mutex s) (Some d') (history s ++ [Recv (Some packet)]))
  | None => Returns None (note (Recv None) s)
  end.

(** [self.port.write(packet)]. *)
Definition port_write (packet : string) : M unit := fun s =>
  match port s with
  | Some d =>
      Returns tt (mk_Serial (mutex s) (Some (dev_write packet d))
                            (history s ++ [Sent packet]))
  | None => Returns tt s
  end.

(** [Serial._write_packet]: a reply still waiting in the buffer is read and
    dropped, then the packet is written; nothing happens without a
    connection. *)
Definition _write_packet (packet : string) : M unit := fun s =>
  match port s with
  | Some d =>
      ((if Nat.eqb (in_waiting d) 0 then mret tt else (recv_packet ;; mret tt)) ;;
       port_write packet) s
  | None => Returns tt s
  end.

(** [Serial.__init__]: a free lock and no connection. *)
Definition Serial_init : Serial := mk_Serial false None [].

(** [port.flushInput()]: what sits in the input buffer is thrown away. *)
Definition flushInput (d : pyserial) : pyserial :=
  mk_pyserial (drop (in_waiting d) (rx d)) 0 (tx d).

(** [Serial.open]; [connect] is what [serial.Serial(portname, 9600, ...)]
    gives, the device, or nothing when it raises (the exception is caught and
    the port stays [None]). *)
Definition open (connect : option pyserial) : M unit :=
  acquire ;;
  (fun s =>
     match port s with
     | None => Returns tt (mk_Serial (mutex s) (flushInput <$> connect) (history s))
     | Some _ => Returns tt s
     end) ;;
  release.

(** ** class Camera (camera.py) *)

(** A string constant given by its bytes: [bytes [0x90; 0x41; 0xFF]] is
    ['\x90'+'\x41'+'\xFF']. *)
Definition bytes (l : list Z) : string :=
  fold_right (fun n s => String (xchr n) s) "" l.

(** [reply == s] for a reply that is a string or [None]. *)
Definition reply_is (reply : option string) (s : string) : bool :=
  match reply with
  | Some r => (r =? s)%string
  | None => false
  end.

(** The header byte computed by [_send_packet]: [1 s2 s1 s0 0 r2 r1 r0], the
    controller being sender 0, and recipient -1 standing for a broadcast. *)
Definition header (recipient : Z) : Z :=
  let sender := 0 in
  let rbits := if recipient =? -1 then 8 else Z.land recipient 7 in
  let sbits := Z.shiftl (Z.land sender 7) 4 in
  Z.lor (Z.lor 128 sbits) rbits.

Definition terminator : Z := 255.

(** [packet = chr(header)+data+chr(terminator)]. *)
Definition encode (data : string) (recipient : Z) : exn + string :=
  match chr (header recipient), chr terminator with
  | inr h, inr t => inr (h +:+ data +:+ t)
  | inl e, _ => inl e
  | _, inl e => inl e
  end.

(** The test of [_send_packet] on what was received: a reply that does not
    end in [0xff] becomes [None]. *)
Definition validate (reply : string) : option string :=
  if negb (slice_last reply =? bytes [0xFF])%string then None else Some reply.

(** [Camera._send_packet(data, recipient=1)]. *)
Definition _send_packet (data : string) (recipient : Z) : M (option string) :=
  packet ← lift (encode data recipient);
  acquire ;;
  _write_packet packet ;;
  reply ← recv_packet;
  match reply with
  | Some r =>
      if negb (r =? "")%string then
        let reply := validate r in
        release ;;
        mret reply
      else mret None
  | None => mret None
  end.

(** [Camera._cmd_cam(subcmd, prefix='\x01\x04')]; a path that reaches the end
    of the function returns [None]. *)
Definition _cmd_cam (subcmd prefix : string) : M value :=
  let packet := prefix +:+ subcmd in
  reply ← _send_packet packet 1;
  if reply_is reply (bytes [0x90; 0x41; 0xFF]) then
    reply ← recv_packet;
    if reply_is reply (bytes [0x90; 0x51; 0xFF]) then mret (PyBool true)
    else mret PyNone
  else if reply_is reply (bytes [0x90; 0x42; 0xFF]) then
    reply ← recv_packet;
    if reply_is reply (bytes [0x90; 0x52; 0xFF]) then mret (PyBool true)
    else mret PyNone
  else if reply_is reply (bytes [0x90; 0x60; 0x02; 0xFF]) then mret (PyBool false)
  else if reply_is reply (bytes [0x90; 0x61; 0x41; 0xFF]) then mret (PyBool false)
  else if reply_is reply (bytes [0x90; 0x62; 0x41; 0xFF]) then mret (PyBool false)
  else mret PyNone.

(** [Camera._cmd_cam_alt(subcmd)]: the answer of [_cmd_cam] is dropped. *)
Definition _cmd_cam_alt (subcmd : string) : M value :=
  let prefix := bytes [0x01; 0x06] in
  _cmd_cam subcmd prefix ;;
  mret PyNone.

(** [Camera._come_back(query)].  The function calls itself on a full buffer;
    [fuel] bounds the depth of these calls.  The answer of the inner call is
    dropped: that branch has no [return].  The interpreter's own bound on
    nested calls (a [RuntimeError] at a depth of about a thousand) is not
    part of the model: a run of the model is a run of the code as long as
    the calls nest less deep than that. *)
Fixpoint _come_back (fuel : nat) (query : string) : M value :=
  reply ← _send_packet query 1;
  if reply_is reply (bytes [0x90; 0x60; 0x03; 0xFF]) then
    match fuel with
    | O => out_of_fuel
    | S fuel' => _come_back fuel' query ;; mret PyNone
    end
  else
    match reply with
    | None => raise AttributeError      (* [None.startswith] *)
    | Some r =>
        if startswith r (bytes [0x90; 0x50]) then mret (PyStr r)
        else if (r =? bytes [0x90; 0x60; 0x02; 0xFF])%string then mret (PyBool false)
        else mret PyNone
    end.

(** *** The reply decoder of [_query] *)

#[global] Instance result_ret : MRet (sum exn) := fun A a => inr a.
#[global] Instance result_bind : MBind (sum exn) := fun A B k r =>
  match r with
  | inl e => inl e
  | inr a => k a
  end.

(** [hex_unpack(value, listt, size=2)], local to [_query].  It appends to the
    list it is given, which the caller still holds, and returns that list only
    when something is left after the first group: the first component is the
    list after the call, the second what the call returns ([None] otherwise). *)
Fixpoint hex_unpack (value : string) (listt : list string)
  : list string * option (list string) :=
  match value with
  | String a (String b rest) =>
      let listt := listt ++ [String a (String b "")] in
      match rest with
      | "" => (listt, None)
      | _ => let listt := fst (hex_unpack rest listt) in (listt, Some listt)
      end
  | String a "" => (listt ++ [String a ""], None)
  | "" => (listt ++ [""], None)
  end.

(** Lines 186-201: the reply without its two leading bytes and without its
    terminator, as hexadecimal text; a long answer becomes the list of its
    two-digit groups, a short one an integer. *)
Definition unpack (reply : string) : exn + value :=
  let reply := encode_hex (slice_init (slice_from 2 reply)) in
  if (2 <? String.length reply)%nat then
    match snd (hex_unpack reply []) with
    | Some l => inr (PyList (PyStr <$> l))
    | None => inr PyNone
    end
  else z ← int16 reply; inr (PyInt z).

(** [v[i]] *)
Definition index (v : value) (i : nat) : exn + value :=
  match v with
  | PyList l => match l !! i with Some e => inr e | None => inl IndexError end
  | PyStr s => match String.get i s with
               | Some c => inr (PyStr (String c ""))
               | None => inl IndexError
               end
  | _ => inl TypeError
  end.

(** [v[i:j]] for [i <= j] *)
Definition slice (v : value) (i j : nat) : exn + value :=
  match v with
  | PyList l => inr (PyList (take (j - i) (drop i l)))
  | PyStr s => inr (PyStr (slice_to (j - i) (slice_from i s)))
  | _ => inl TypeError
  end.

(** [int(v, 16)] *)
Definition int16_of (v : value) : exn + Z :=
  match v with
  | PyStr s => int16 s
  | _ => inl TypeError
  end.

(** The key under which a value is looked up in a table of integer codes;
    a list cannot be hashed. *)
Definition code_of (v : value) : exn + option Z :=
  match v with
  | PyInt z => inr (Some z)
  | PyBool b => inr (Some (if b then 1 else 0))
  | PyList _ => inl TypeError
  | _ => inr None
  end.

(** The degree sign of the source file, in UTF-8. *)
Definition degree_sign : string := bytes [0xC2; 0xB0].

Section Camera.

(** The tables of [pyviscam.constants] and the converters of
    [pyviscam.convert] and [pyviscam.pan_tilt_utils], which [camera.py]
    imports and which are not part of the sources: [queries] maps a property
    name to its inquiry code, [answers] maps a property name to its table of
    integer codes and labels. *)
Variable queries : gmap string string.
Variable answers : gmap string (gmap Z value).
Variable high_res_params : gset string.
Variable very_high_res_params : gset string.
Variable hex_to_int : value -> exn + value.
Variable visca_to_degree : value -> string -> exn + value.

(** Lines 202-236 of [_query]: the translation of the unpacked reply. *)
Definition translate (function : string) (reply : value) : exn + value :=
  reply ←
    (if bool_decide (function ∈ high_res_params) then hex_to_int reply
     else if bool_decide (function ∈ very_high_res_params) then hex_to_int reply
     else inr reply);
  match answers !! function with
  | Some table =>
      code ← code_of reply;
      match code ≫= (table !!.) with
      | Some label => inr label
      | None => inr reply
      end
  | None =>
      if (function =? "NR")%string || (function =? "gamma")%string
         || (function =? "chromasuppress")%string then inr reply
      else if (function =? "color_gain")%string || (function =? "color_hue")%string then
        group ← index reply 3;
        reply ← int16_of group;
        let reply := str_of_int (scale reply 0 14 60 200) in
        if (function =? "color_gain")%string then inr (PyStr (reply +:+ "%"))
        else inr (PyStr (reply +:+ degree_sign))
      else if (function =? "pan_tilt")%string then
        pan ← slice reply 0 4;
        tilt ← slice reply 4 8;
        pan ← hex_to_int pan;
        tilt ← hex_to_int tilt;
        pan ← visca_to_degree pan "pan";
        tilt ← visca_to_degree tilt "tilt";
        inr (PyList [pan; tilt])
      else inr reply
  end.

(** [Camera._query(function=None)]; [function] is a property name or
    [None].  The function calls itself when [_come_back] gives [None];
    [fuel] bounds the depth of these calls and of those of [_come_back]. *)
Fixpoint _query (fuel : nat) (function : option string) : M value :=
  match function with
  | None => mret (PyBool false)
  | Some function =>
      if (function =? "")%string then mret (PyBool false)
      else
        let function :=
          if (function =? "pan")%string || (function =? "tilt")%string
          then "pan_tilt" else function in
        match queries !! function with
        | None => mret (PyBool false)
        | Some subcmd =>
            let query := bytes [0x09] +:+ subcmd in
            match fuel with
            | O => out_of_fuel
            | S fuel' =>
                reply ← _come_back fuel' query;
                match reply with
                | PyNone => _query fuel' (Some function)
                | _ =>
                    if truthy reply then
                      match reply with
                      | PyStr r =>
                          reply ← lift (unpack r);
                          lift (translate function reply)
                      | PyList _ => raise AttributeError
                      | _ => raise TypeError
                      end
                    else mret PyNone
                end
            end
        end
  end.

End Camera.

(** ** Lines, frames and scenarios *)

(** No byte of [s] is the terminator [0xff]. *)
Definition terminator_free (s : string) : bool :=
  forallb (fun c => negb (ord c =? terminator)) (list_ascii_of_string s).

(** What [read(1)] returns, byte after byte, when the line delivers [s]. *)
Definition incoming (s : string) : list (option ascii) :=
  Some <$> list_ascii_of_string s.

(** A connection on which the bytes of [script] arrive, nothing being
    buffered or written yet, and a free lock. *)
Definition connected (script : list (option ascii)) : Serial :=
  mk_Serial false (Some (mk_pyserial script 0 [])) [].

(** A connection on which nothing ever arrives. *)
Definition silent_line : Serial := connected [].

(** The command "power on": prefix [01 04], subcommand [00 02]. *)
Definition power_on : string := bytes [0x01; 0x04; 0x00; 0x02].

(** A payload of 15 bytes. *)
Definition oversized_payload : string :=
  bytes [1; 2; 3; 4; 5; 6; 7; 8; 9; 10; 11; 12; 13; 14; 15].

(** The replies of the camera, as the handshakes compare them. *)
Definition ack (socket : Z) : string := bytes [0x90; 0x40 + socket; 0xFF].
Definition completion (socket : Z) : string := bytes [0x90; 0x50 + socket; 0xFF].
Definition buffer_full : string := bytes [0x90; 0x60; 0x03; 0xFF].
Definition syntax_error : string := bytes [0x90; 0x60; 0x02; 0xFF].

(** The two hexadecimal digits of one byte, and the groups of a payload: what
    [encode('hex')] and [hex_unpack] make of it. *)
Definition hex_group (c : ascii) : string := encode_hex (String c "").

Definition hex_groups (payload : string) : list string :=
  hex_group <$> list_ascii_of_string payload.

(** A line in any state of use: [script] is still to arrive, nothing is
    buffered, [written] was written before and [past] is the history so
    far; the lock is free. *)
Definition line (script : list (option ascii)) (written : list string)
    (past : list event) : Serial :=
  mk_Serial false (Some (mk_pyserial script 0 written)) past.

(** Sample tables: a few inquiry codes of the protocol, no table of labels,
    no high-resolution property, and converters that leave their argument as
    it is. *)
Definition sample_queries : gmap string string :=
  {[ "power" := bytes [0x04; 0x00];
     "pan_tilt" := bytes [0x06; 0x12];
     "color_gain" := bytes [0x04; 0x49];
     "color_hue" := bytes [0x04; 0x4F] ]}.

Definition sample_hex_to_int (v : value) : exn + value := inr v.

Definition sample_visca_to_degree (v : value) (axis : string) : exn + value := inr v.

Definition sample_query : nat -> option string -> M value :=
  _query sample_queries ∅ ∅ ∅ sample_hex_to_int sample_visca_to_degree.

(** The name under which [_query] looks a property up: [pan] and [tilt] are
    read together as [pan_tilt]. *)
Definition looked_up (function : string) : string :=
  if (function =? "pan")%string || (function =? "tilt")%string
  then "pan_tilt" else function.

(** The state of the line after one exchange: [packet] was written and
    [reply] read, between an acquisition and a release of the lock. *)
Definition after_exchange (packet reply : string) (rest : list (option ascii))
    (t : list string) (h : list event) : Serial :=
  mk_Serial false (Some (mk_pyserial rest 0 (t ++ [packet])))
    (h ++ [Acquire; Sent packet; Recv (Some reply); Release]).

(** A payload of one byte. *)
Definition one_byte : string := bytes [0x12].

(** Is every write and every read of the history [h] done while the lock is
    held, the lock being free in the end; [held] tells whether it is held at
    the start. *)
Fixpoint under_lock (held : bool) (h : list event) : bool :=
  match h with
  | [] => negb held
  | Acquire :: h => negb held && under_lock true h
  | Release :: h => held && under_lock false h
  | Sent _ :: h => held && under_lock held h
  | Recv _ :: h => held && under_lock held h
  end.

(** The inquiry of the power state as [_query] frames it. *)
Definition power_inquiry : string := bytes [0x81; 0x09; 0x04; 0x00; 0xFF].

(** The reply to a colour gain or hue inquiry whose fourth group is [group]. *)
Definition scaled_reply (group : Z) : string :=
  bytes [0x90; 0x50; 0x00; 0x00; 0x00; group; 0xFF].

(** ** The catalogue of commands (camera.py, from line 241 on) *)

(** The prefix that [_cmd_cam] takes by default. *)
Definition default_prefix : string := bytes [0x01; 0x04].

(** [Camera.zoom_tele(speed=3)] *)
Definition zoom_tele (speed : Z) : M value :=
  subcmd ← lift (if speed =? 3 then inr (bytes [0x07; 0x02])
                 else
                   let sbyte := 0x20 + Z.land speed 7 in
                   c ← chr sbyte; inr (bytes [0x07] +:+ c));
  _cmd_cam subcmd default_prefix.

(** [Camera.zoom_wide(speed=3)] *)
Definition zoom_wide (speed : Z) : M value :=
  subcmd ← lift (if speed =? 3 then inr (bytes [0x07; 0x03])
                 else
                   let sbyte := 0x30 + Z.land speed 7 in
                   c ← chr sbyte; inr (bytes [0x07] +:+ c));
  _cmd_cam subcmd default_prefix.

(** [Camera.focus_far(speed=3)] *)
Definition focus_far (speed : Z) : M value :=
  subcmd ← lift (if speed =? 3 then inr (bytes [0x08; 0x03])
                 else
                   let sbyte := 0x30 + Z.land speed 7 in
                   c ← chr sbyte; inr (bytes [0x08] +:+ c));
  _cmd_cam subcmd default_prefix.

(** [Camera.focus_near(speed=3)] *)
Definition focus_near (speed : Z) : M value :=
  subcmd ← lift (if speed =? 3 then inr (bytes [0x08; 0x02])
                 else
                   let sbyte := 0x20 + Z.land speed 7 in
                   c ← chr sbyte; inr (bytes [0x08] +:+ c));
  _cmd_cam subcmd default_prefix.

(** [Camera.focus_auto_sensitivity(state)]: a state that is neither
    ['normal'] nor ['low'] reaches the end of the function. *)
Definition focus_auto_sensitivity (state : string) : M value :=
  if (state =? "normal")%string then _cmd_cam (bytes [0x58; 0x02]) default_prefix
  else if (state =? "low")%string then _cmd_cam (bytes [0x58; 0x03]) default_prefix
  else mret PyNone.

(** The tail of the setters that choose [subcmd] by name:
    [if 'subcmd' in locals(): return send(subcmd) else: return False]. *)
Definition if_in_locals (subcmd : option string) (send : string -> M value) : M value :=
  match subcmd with
  | Some subcmd => send subcmd
  | None => mret (PyBool false)
  end.

(** [Camera.focus_auto_mode(state)] *)
Definition focus_auto_mode (state : string) : M value :=
  if_in_locals
    (if (state =? "normal")%string then Some (bytes [0x57; 0x00])
     else if (state =? "interval")%string then Some (bytes [0x57; 0x01])
     else if (state =? "zoom_trigger")%string then Some (bytes [0x57; 0x02])
     else None)
    (fun subcmd => _cmd_cam subcmd default_prefix).

(** The setter of [Camera.WB]. *)
Definition set_WB (mode : string) : M value :=
  if_in_locals
    (if (mode =? "auto")%string then Some (bytes [0x00])
     else if (mode =? "indoor")%string then Some (bytes [0x01])
     else if (mode =? "outdoor")%string then Some (bytes [0x02])
     else if (mode =? "trigger")%string then Some (bytes [0x03])
     else if (mode =? "manual")%string then Some (bytes [0x05])
     else None)
    (fun subcmd =>
       let prefix := bytes [0x35] in
       let subcmd := prefix +:+ subcmd in
       _cmd_cam subcmd default_prefix).

(** The setter of [Camera.AE]. *)
Definition set_AE (mode : string) : M value :=
  if_in_locals
    (if (mode =? "auto")%string then Some (bytes [0x39; 0x00])
     else if (mode =? "shutter")%string then Some (bytes [0x39; 0x0A])
     else if (mode =? "manual")%string then Some (bytes [0x39; 0x03])
     else if (mode =? "iris")%string then Some (bytes [0x39; 0x0B])
     else if (mode =? "bright")%string then Some (bytes [0x39; 0x0D])
     else None)
    (fun subcmd => _cmd_cam subcmd default_prefix).

(** The setter of [Camera.FX]: three tests in a row, the last that holds
    decides. *)
Definition set_FX (mode : string) : M value :=
  let subcmd := None in
  let subcmd := if (mode =? "Normal")%string then Some (bytes [0x63; 0x00]) else subcmd in
  let subcmd := if (mode =? "NegArt")%string then Some (bytes [0x63; 0x02]) else subcmd in
  let subcmd := if (mode =? "B&W")%string then Some (bytes [0x63; 0x04]) else subcmd in
  if_in_locals subcmd (fun subcmd => _cmd_cam subcmd default_prefix).

(** The setter of [Camera.video]. *)
Definition set_video (resfreq : string) : M value :=
  if_in_locals
    (if (resfreq =? "1080PsF29.97")%string then Some (bytes [0x35; 0x00; 0x00])
     else if (resfreq =? "1080p29.97")%string then Some (bytes [0x35; 0x00; 0x01])
     else if (resfreq =? "720p59.94")%string then Some (bytes [0x35; 0x00; 0x02])
     else if (resfreq =? "720p29.97")%string then Some (bytes [0x35; 0x00; 0x03])
     else if (resfreq =? "NTSC")%string then Some (bytes [0x35; 0x00; 0x04])
     else if (resfreq =? "1080PsF25")%string then Some (bytes [0x35; 0x00; 0x08])
     else if (resfreq =? "720p50")%string then Some (bytes [0x35; 0x00; 0x09])
     else if (resfreq =? "720p25")%string then Some (bytes [0x35; 0x00; 0x0A])
     else if (resfreq =? "1080i50")%string then Some (bytes [0x35; 0x00; 0x0B])
     else if (resfreq =? "PAL")%string then Some (bytes [0x35; 0x00; 0x0C])
     else None)
    _cmd_cam_alt.

(** [Camera._memory(func, num)] for integers [func] and [num]. *)
Definition _memory (func num : Z) : M value :=
  let num := if 5 <? num then 5 else num in
  if (func <? 0) || (2 <? func) then mret (PyBool false)
  else
    subcmd ← lift (f ← chr func;
                   n ← chr (Z.land 7 num);
                   inr (bytes [0x3f] +:+ f +:+ n));
    _cmd_cam subcmd default_prefix.

Definition memory_reset (num : Z) : M value := _memory 0x00 num.
Definition memory_set (num : Z) : M value := _memory 0x01 num.
Definition memory_recall (num : Z) : M value := _memory 0x02 num.

(** The speeds that a [Camera] object keeps; [__init__] sets both to 5. *)
Record Camera : Type := mk_Camera {
  _pan_speed : Z;
  _tilt_speed : Z
}.

Definition Camera_init : Camera := mk_Camera 0x05 0x05.


Definition set_tilt_speed (self : Camera) (speed : Z) : Camera :=
  mk_Camera (_pan_speed self) speed.

(** [Camera._cmd_ptd(lr, ud)] *)
Definition _cmd_ptd (self : Camera) (lr ud : Z) : M value :=
  subcmd ← lift (p ← chr (_pan_speed self);
                 t ← chr (_tilt_speed self);
                 l ← chr lr;
                 u ← chr ud;
                 inr (bytes [0x01] +:+ p +:+ t +:+ l +:+ u));
  _cmd_cam_alt subcmd.

Definition up (self : Camera) : M value := _cmd_ptd self 0x03 0x01.
Definition down (self : Camera) : M value := _cmd_ptd self 0x03 0x02.
Definition left (self : Camera) : M value := _cmd_ptd self 0x01 0x03.
Definition right (self : Camera) : M value := _cmd_ptd self 0x02 0x03.
Definition upleft (self : Camera) : M value := _cmd_ptd self 0x01 0x01.
Definition upright (self : Camera) : M value := _cmd_ptd self 0x02 0x01.
Definition downleft (self : Camera) : M value := _cmd_ptd self 0x01 0x02.
Definition downright (self : Camera) : M value := _cmd_ptd self 0x02 0x02.
Definition stop (self : Camera) : M value := _cmd_ptd self 0x03 0x03.

(** [Camera.home], [Camera.reset] and [Camera.menu_off]. *)
Definition home : M value := _cmd_cam_alt (bytes [0x04]).
Definition reset : M value := _cmd_cam_alt (bytes [0x05]).
Definition menu_off : M value := _cmd_cam_alt (bytes [0x06; 0x03]).

Section Getters.

Variable queries : gmap string string.
Variable answers : gmap string (gmap Z value).
Variable high_res_params : gset string.
Variable very_high_res_params : gset string.
Variable hex_to_int : value -> exn + value.
Variable visca_to_degree : value -> string -> exn + value.

(** The getters of [Camera.pan] and [Camera.tilt]:
    [self._query('pan_tilt')[0]] and [self._query('pan_tilt')[1]]. *)
Definition pan (fuel : nat) : M value :=
  reply ← _query queries answers high_res_params very_high_res_params
            hex_to_int visca_to_degree fuel (Some "pan_tilt");
  lift (index reply 0).

Definition tilt (fuel : nat) : M value :=
  reply ← _query queries answers high_res_params very_high_res_params
            hex_to_int visca_to_degree fuel (Some "pan_tilt");
  lift (index reply 1).

End Getters.

(** The text of a list of groups, one after the other. *)
Definition joined (groups : list string) : string :=
  fold_right String.append "" groups.

(** The outcome of a command is a return of [None]. *)
Definition returns_none (o : outcome value) : Prop :=
  match o with
  | Returns v _ => v = PyNone
  | _ => True
  end.

(** * Properties *)

(** ** Strings and bytes *)

Lemma str_app_cons (ch : ascii) (a b : string) :
  String ch a +:+ b = String ch (a +:+ b).
Proof. reflexivity. Qed.

Lemma str_app_nil_l (a : string) : "" +:+ a = a.
Proof. reflexivity. Qed.

Lemma str_app_assoc (a b c : string) : (a +:+ b) +:+ c = a +:+ (b +:+ c).
Proof.
  induction a as [|ch a IH]; [reflexivity |].
  rewrite !str_app_cons. now rewrite IH.
Qed.

Lemma str_app_nil_r (a : string) : a +:+ "" = a.
Proof.
  induction a as [|ch a IH]; [reflexivity |].
  rewrite str_app_cons. now rewrite IH.
Qed.

Lemma str_length_app (a b : string) :
  String.length (a +:+ b) = (String.length a + String.length b)%nat.
Proof.
  induction a as [|ch a IH]; [reflexivity |].
  rewrite str_app_cons. simpl. now rewrite IH.
Qed.

Lemma ord_range (c : ascii) : 0 <= ord c <= 255.
Proof.
  unfold ord. pose proof (N_ascii_bounded c). lia.
Qed.

Lemma chr_ord (c : ascii) : ascii_of_N (Z.to_N (ord c)) = c.
Proof. unfold ord. now rewrite N2Z.id, ascii_N_embedding. Qed.

Lemma ord_xchr (i : Z) : 0 <= i < 256 -> ord (xchr i) = i.
Proof.
  intros Hi. unfold ord, xchr. rewrite N_ascii_embedding by lia. lia.
Qed.

Lemma slice_last_app (a : string) (c : ascii) :
  slice_last (a +:+ String c "") = String c "".
Proof.
  induction a as [|ch a IH]; [reflexivity |].
  rewrite str_app_cons. simpl. rewrite IH.
  destruct (a +:+ String c "") eqn:E; [|reflexivity].
  destruct a; discriminate.
Qed.

Lemma slice_init_app (a : string) (c : ascii) :
  slice_init (a +:+ String c "") = a.
Proof.
  induction a as [|ch a IH]; [reflexivity |].
  rewrite str_app_cons. simpl. rewrite IH.
  destruct (a +:+ String c "") eqn:E; [|reflexivity].
  destruct a; discriminate.
Qed.

(** The header in closed form: [0x88] for a broadcast, [0x80] plus the three
    low bits of the recipient otherwise. *)
Lemma header_value (r : Z) :
  header r = if r =? -1 then 136 else 128 + r mod 8.
Proof.
  unfold header. change (Z.lor 128 (Z.shiftl (Z.land 0 7) 4)) with 128.
  destruct (r =? -1); [reflexivity |].
  change 7 with (Z.ones 3). rewrite Z.land_ones by lia.
  change (2 ^ 3) with 8.
  pose proof (Z.mod_pos_bound r 8 eq_refl) as Hk.
  set (k := r mod 8) in *. clearbody k.
  assert (Hcases : k = 0 \/ k = 1 \/ k = 2 \/ k = 3 \/ k = 4 \/ k = 5 \/ k = 6 \/ k = 7)
    by lia.
  repeat (destruct Hcases as [-> | Hcases]; [reflexivity |]).
  now subst k.
Qed.

(** The header is a byte, so [chr(header)] never raises. *)
Lemma header_byte (r : Z) : 128 <= header r <= 143.
Proof.
  rewrite header_value. pose proof (Z.mod_pos_bound r 8 eq_refl).
  destruct (r =? -1); lia.
Qed.

Lemma encode_ok (data : string) (r : Z) :
  encode data r = inr (String (xchr (header r)) (data +:+ bytes [255])).
Proof.
  unfold encode, chr. pose proof (header_byte r) as Hh.
  replace ((0 <=? header r) && (header r <? 256)) with true
    by (symmetry; apply andb_true_iff; split; [apply Z.leb_le | apply Z.ltb_lt]; lia).
  reflexivity.
Qed.

(** ** Reading one frame from the line *)

Lemma incoming_cons (c : ascii) (s : string) :
  incoming (String c s) = Some c :: incoming s.
Proof. reflexivity. Qed.

(** A frame shorter than the byte ceiling whose only [0xff] is its last byte
    is read whole, and the line is left at what follows it. *)
Lemma recv_loop_frame (body : string) :
  forall (n : nat) (acc : string) (rest : list (option ascii)) (w : nat) (t : list string),
    (String.length body < n)%nat ->
    terminator_free body = true ->
    recv_loop n (mk_pyserial (incoming (body +:+ bytes [255]) ++ rest) w t) acc
    = (acc +:+ body +:+ bytes [255],
       mk_pyserial rest (w - S (String.length body)) t).
Proof.
  induction body as [|c body IH]; intros n acc rest w t Hlen Hfree.
  - destruct n as [|n]; [simpl in Hlen; lia |].
    cbn. now rewrite Nat.sub_1_r.
  - destruct n as [|n]; [simpl in Hlen; lia |].
    cbn in Hfree. apply andb_true_iff in Hfree as [Hc Hfree].
    apply negb_true_iff in Hc.
    rewrite str_app_cons, incoming_cons.
    cbn [recv_loop dev_read rx app in_waiting tx].
    rewrite chr_ord. unfold terminator in Hc. rewrite Hc.
    rewrite IH; [| simpl in Hlen; lia | assumption].
    rewrite !str_app_assoc, str_app_cons, str_app_nil_l.
    do 2 f_equal. simpl. lia.
Qed.

Lemma recv_packet_frame (s : Serial) (d : pyserial) (body : string)
    (rest : list (option ascii)) :
  port s = Some d ->
  rx d = incoming (body +:+ bytes [255]) ++ rest ->
  (String.length body < 16)%nat ->
  terminator_free body = true ->
  recv_packet s
  = Returns (Some (body +:+ bytes [255]))
      (mk_Serial (mutex s)
         (Some (mk_pyserial rest (in_waiting d - S (String.length body)) (tx d)))
         (history s ++ [Recv (Some (body +:+ bytes [255]))])).
Proof.
  intros Hport Hrx Hlen Hfree. unfold recv_packet. rewrite Hport.
  destruct d as [r w t]. simpl in Hrx. subst r.
  rewrite recv_loop_frame by assumption. reflexivity.
Qed.

Lemma terminator_free_header (r : Z) (data : string) :
  terminator_free data = true ->
  terminator_free (String (xchr (header r)) data) = true.
Proof.
  intros H. unfold terminator_free in *. cbn [list_ascii_of_string forallb].
  rewrite H, andb_true_r. apply negb_true_iff, Z.eqb_neq.
  pose proof (header_byte r). rewrite ord_xchr by lia. unfold terminator. lia.
Qed.

(** ** Packet framing *)

(** C9: a broadcast, which the code spells recipient -1, is framed with the
    header byte 0x88 (sender 0) whatever the payload; a recipient [r] in 0..7
    is framed with the header [0x80 | r], whose top bit is set, whose sender
    bits are 0 and whose low three bits are [r]. *)
Theorem header_broadcast_and_recipient (data : string) (r : Z) :
  0 <= r <= 7 ->
  header (-1) = 0x88 /\
  encode data (-1) = inr (String (xchr 0x88) (data +:+ bytes [0xFF])) /\
  header r = Z.lor 0x80 r /\
  Z.testbit (header r) 7 = true /\
  Z.land (Z.shiftr (header r) 4) 7 = 0 /\
  Z.land (header r) 7 = r /\
  encode data r = inr (String (xchr (Z.lor 0x80 r)) (data +:+ bytes [0xFF])).
Proof.
  intros Hr.
  assert (Hh : header r = Z.lor 0x80 r).
  { assert (Hc : r = 0 \/ r = 1 \/ r = 2 \/ r = 3 \/ r = 4 \/ r = 5 \/ r = 6 \/ r = 7)
      by lia.
    repeat (destruct Hc as [-> | Hc]; [reflexivity |]). now subst r. }
  split; [reflexivity |]. split; [apply encode_ok |].
  split; [exact Hh |].
  rewrite encode_ok, Hh.
  assert (Hc : r = 0 \/ r = 1 \/ r = 2 \/ r = 3 \/ r = 4 \/ r = 5 \/ r = 6 \/ r = 7)
    by lia.
  repeat (destruct Hc as [-> | Hc]; [repeat split |]).
  subst r. repeat split.
Qed.

Lemma header_broadcast_and_recipient_witness :
  header (-1) = 0x88 /\
  encode power_on (-1) = inr (String (xchr 0x88) (power_on +:+ bytes [0xFF])) /\
  header 5 = Z.lor 0x80 5 /\
  Z.testbit (header 5) 7 = true /\
  Z.land (Z.shiftr (header 5) 4) 7 = 0 /\
  Z.land (header 5) 7 = 5 /\
  encode power_on 5
  = inr (String (xchr (Z.lor 0x80 5)) (power_on +:+ bytes [0xFF])).
Proof.
  apply (header_broadcast_and_recipient power_on 5). lia.
Defined.

(** C6, as the code has it: encoding never fails and the frame has exactly two
    bytes more than the payload, the header and the terminator; it has 3 to 16
    bytes when the payload has 1 to 14.  No length is checked. *)
Theorem encode_frame_length (data : string) (r : Z) :
  exists frame : string,
    encode data r = inr frame /\
    String.length frame = (String.length data + 2)%nat /\
    ((1 <= String.length data <= 14)%nat -> (3 <= String.length frame <= 16)%nat).
Proof.
  exists (String (xchr (header r)) (data +:+ bytes [255])).
  split; [apply encode_ok |].
  assert (Hlen : String.length (String (xchr (header r)) (data +:+ bytes [255]))
                 = (String.length data + 2)%nat).
  { cbn [String.length]. rewrite str_length_app. simpl. lia. }
  split; [exact Hlen | lia].
Qed.

Lemma encode_frame_length_witness :
  exists frame : string,
    encode power_on 1 = inr frame /\
    String.length frame = (String.length power_on + 2)%nat /\
    ((1 <= String.length power_on <= 14)%nat ->
     (3 <= String.length frame <= 16)%nat).
Proof.
  apply (encode_frame_length power_on 1).
Defined.

(** C6 fails as stated: a payload of 15 bytes is not refused, it is framed
    into 17 bytes, and [_send_packet] writes these 17 bytes to the line; an
    empty payload gives a frame of 2 bytes. *)
Lemma encode_oversized_payload :
  String.length oversized_payload = 15%nat /\
  (exists frame : string,
     encode oversized_payload 1 = inr frame /\
     String.length frame = 17%nat /\
     exists s' : Serial,
       _send_packet oversized_payload 1 silent_line = Returns None s' /\
       tx <$> port s' = Some [frame]) /\
  (exists frame : string,
     encode "" 1 = inr frame /\ String.length frame = 2%nat).
Proof.
  split; [reflexivity |]. split.
  - eexists. split; [reflexivity |]. split; [reflexivity |].
    eexists. split; reflexivity.
  - eexists. split; reflexivity.
Qed.

(** C1: for a payload of 1 to 14 bytes free of 0xFF and an address with
    sender 0 and recipient 0..7 or broadcast (-1), the packet is encoded into
    header, payload and terminator; the frame passes the validation unchanged;
    the sender and recipient bits of its header and the bytes between header
    and terminator are the original address and payload; and a line that
    delivers the frame has [recv_packet] return it whole. *)
Theorem encode_validate_round_trip (data : string) (r : Z) :
  (1 <= String.length data <= 14)%nat ->
  r = -1 \/ 0 <= r <= 7 ->
  terminator_free data = true ->
  exists (h : ascii) (frame : string),
    encode data r = inr frame /\
    frame = String h (data +:+ bytes [0xFF]) /\
    validate frame = Some frame /\
    Z.land (Z.shiftr (ord h) 4) 7 = 0 /\
    Z.land (ord h) 15 = (if r =? -1 then 8 else r) /\
    slice_init (slice_from 1 frame) = data /\
    forall (s : Serial) (d : pyserial) (rest : list (option ascii)),
      port s = Some d ->
      rx d = incoming frame ++ rest ->
      exists s' : Serial,
        recv_packet s = Returns (Some frame) s' /\
        rx <$> port s' = Some rest.
Proof.
  intros Hlen Hr Hfree.
  exists (xchr (header r)), (String (xchr (header r)) (data +:+ bytes [255])).
  pose proof (header_byte r) as Hb.
  split; [apply encode_ok |]. split; [reflexivity |].
  split.
  { unfold validate.
    change (String (xchr (header r)) (data +:+ bytes [255]))
      with ((String (xchr (header r)) data) +:+ String (xchr 255) "").
    now rewrite slice_last_app. }
  rewrite ord_xchr by lia.
  split; [| split].
  { destruct Hr as [-> | Hr]; [reflexivity |].
    assert (Hc : r = 0 \/ r = 1 \/ r = 2 \/ r = 3 \/ r = 4 \/ r = 5 \/ r = 6 \/ r = 7)
      by lia.
    repeat (destruct Hc as [-> | Hc]; [reflexivity |]). now subst r. }
  { destruct Hr as [-> | Hr]; [reflexivity |].
    assert (Hc : r = 0 \/ r = 1 \/ r = 2 \/ r = 3 \/ r = 4 \/ r = 5 \/ r = 6 \/ r = 7)
      by lia.
    repeat (destruct Hc as [-> | Hc]; [reflexivity |]). now subst r. }
  split.
  { cbn [slice_from]. apply slice_init_app. }
  intros s d rest Hport Hrx.
  eexists. split.
  - change (String (xchr (header r)) (data +:+ bytes [255]))
      with ((String (xchr (header r)) data) +:+ bytes [255]) in *.
    apply (recv_packet_frame s d _ rest Hport Hrx).
    + simpl. lia.
    + now apply terminator_free_header.
  - reflexivity.
Qed.

Lemma encode_validate_round_trip_witness :
  exists (h : ascii) (frame : string),
    encode power_on 1 = inr frame /\
    frame = String h (power_on +:+ bytes [0xFF]) /\
    validate frame = Some frame /\
    Z.land (Z.shiftr (ord h) 4) 7 = 0 /\
    Z.land (ord h) 15 = (if 1 =? -1 then 8 else 1) /\
    slice_init (slice_from 1 frame) = power_on /\
    forall (s : Serial) (d : pyserial) (rest : list (option ascii)),
      port s = Some d ->
      rx d = incoming frame ++ rest ->
      exists s' : Serial,
        recv_packet s = Returns (Some frame) s' /\
        rx <$> port s' = Some rest.
Proof.
  apply (encode_validate_round_trip power_on 1).
  - simpl. lia.
  - right. lia.
  - reflexivity.
Defined.

(** ** One exchange: [_send_packet] *)

Ltac unfold_monad :=
  unfold mbind, M_bind, mret, M_ret, bind, ret, raise, lift, out_of_fuel.

(** The packet that [_send_packet] puts on the line. *)
Lemma send_packet_reply (data : string) (r : Z) (s : Serial) (d : pyserial)
    (body : string) (rest : list (option ascii)) :
  mutex s = false ->
  port s = Some d ->
  in_waiting d = 0%nat ->
  rx d = incoming (body +:+ bytes [255]) ++ rest ->
  (String.length body < 16)%nat ->
  terminator_free body = true ->
  _send_packet data r s
  = Returns (Some (body +:+ bytes [255]))
      (mk_Serial false
         (Some (mk_pyserial rest 0
                  (tx d ++ [String (xchr (header r)) (data +:+ bytes [255])])))
         (history s ++ [Acquire;
                        Sent (String (xchr (header r)) (data +:+ bytes [255]));
                        Recv (Some (body +:+ bytes [255]));
                        Release])).
Proof.
  intros Hmutex Hport Hwait Hrx Hlen Hfree.
  destruct s as [m p h]; destruct d as [rxd w t]; simpl in *; subst.
  unfold _send_packet. rewrite encode_ok. unfold_monad.
  unfold acquire, _write_packet, port_write, dev_write. unfold_monad.
  cbn -[recv_packet incoming bytes].
  erewrite recv_packet_frame; [| reflexivity | reflexivity | assumption | assumption].
  cbn -[recv_packet incoming bytes validate].
  replace (body +:+ bytes [255] =? "")%string with false
    by (symmetry; apply String.eqb_neq; destruct body; discriminate).
  cbn -[bytes validate].
  unfold validate. change (bytes [255]) with (String (xchr 255) "").
  rewrite slice_last_app, String.eqb_refl. cbn [negb].
  rewrite <- !app_assoc. reflexivity.
Qed.

(** ** The command handshake: [_cmd_cam] *)

(** Evaluate the comparisons of a reply with the constants of the protocol. *)
Ltac eval_reply_is :=
  cbv beta iota;
  repeat match goal with
         | |- context [reply_is ?a ?b] =>
             let v := eval vm_compute in (reply_is a b) in
             change (reply_is a b) with v
         end;
  cbv beta iota.

(** Rewrite the exchange of the goal with an equation that states it up to
    computation. *)
Ltac rewrite_send H :=
  match type of H with
  | _ = ?rhs =>
      match goal with
      | |- context [_send_packet ?d ?r ?s] =>
          replace (_send_packet d r s) with rhs by (symmetry; exact H)
      end
  end.

(** The first reply of a command has been read under the lock; the second is
    read by [recv_packet] alone. *)
Lemma cmd_cam_two_replies (subcmd prefix : string) (s : Serial) (d : pyserial)
    (first second : string) (rest : list (option ascii)) :
  mutex s = false ->
  port s = Some d ->
  in_waiting d = 0%nat ->
  rx d = incoming (first +:+ bytes [255]) ++ incoming (second +:+ bytes [255]) ++ rest ->
  (String.length first < 16)%nat -> terminator_free first = true ->
  (String.length second < 16)%nat -> terminator_free second = true ->
  exists s1 s2 : Serial,
    _send_packet (prefix +:+ subcmd) 1 s = Returns (Some (first +:+ bytes [255])) s1 /\
    recv_packet s1 = Returns (Some (second +:+ bytes [255])) s2 /\
    mutex s1 = false /\ mutex s2 = false /\
    rx <$> port s2 = Some rest.
Proof.
  intros Hm Hp Hw Hrx Hl1 Hf1 Hl2 Hf2.
  eexists. eexists. split.
  - apply (send_packet_reply _ 1 s d first _ Hm Hp Hw Hrx Hl1 Hf1).
  - split.
    + apply recv_packet_frame with (rest := rest); [reflexivity | reflexivity | assumption..].
    + repeat split.
Qed.

(** [reply == s] holds for the string [s] alone. *)
Lemma reply_is_true (reply : option string) (s : string) :
  reply_is reply s = true -> reply = Some s.
Proof.
  destruct reply as [r |]; [| discriminate]. cbn [reply_is].
  intros H. apply String.eqb_eq in H. now subst.
Qed.

Lemma reply_is_false (reply : option string) (s : string) :
  reply_is reply s = false -> reply <> Some s.
Proof.
  intros H ->. cbn [reply_is] in H. now rewrite String.eqb_refl in H.
Qed.

(** C3: the pairing rule of the command handshake, for every reply sequence
    that begins with an Ack.  The Ack of socket 1 or 2 being the reply to the
    command, let [second] be whatever [recv_packet] reads next from what
    follows the Ack on the line.  Then [_cmd_cam] returns [True], the success,
    when [second] is the Completion of the same socket, and [None], the
    answer of [_cmd_cam] to an unexpected reply, for every other [second]:
    the Completion of the other socket, a second Ack, an error frame, a frame
    without terminator.  So the answer is [True] exactly for a matched pair.
    This on any line with a free lock and nothing stale in its buffer,
    whatever was written before. *)
Theorem cmd_cam_pairing (subcmd prefix : string) (socket : Z)
    (script : list (option ascii)) (t : list string) (h : list event)
    (second : option string) (s2 : Serial) :
  socket = 1 \/ socket = 2 ->
  recv_packet
    (after_exchange (String (xchr 0x81) ((prefix +:+ subcmd) +:+ bytes [0xFF]))
       (ack socket) script t h)
  = Returns second s2 ->
  exists v : value,
    _cmd_cam subcmd prefix (line (incoming (ack socket) ++ script) t h) = Returns v s2 /\
    (second = Some (completion socket) -> v = PyBool true) /\
    (second <> Some (completion socket) -> v = PyNone) /\
    (second = Some (completion (3 - socket)) -> v = PyNone) /\
    (v = PyBool true <-> second = Some (completion socket)).
Proof.
  intros Hsocket Hrecv.
  assert (Hrun :
    _cmd_cam subcmd prefix (line (incoming (ack socket) ++ script) t h)
    = Returns (if reply_is second (completion socket) then PyBool true else PyNone) s2).
  { destruct Hsocket as [-> | ->].
    - pose proof (send_packet_reply (prefix +:+ subcmd) 1
                    (line (incoming (ack 1) ++ script) t h)
                    (mk_pyserial (incoming (ack 1) ++ script) 0 t)
                    (bytes [0x90; 0x41]) script
                    eq_refl eq_refl eq_refl eq_refl) as Hsend.
      specialize (Hsend ltac:(vm_compute; lia) eq_refl).
      set (verdict := reply_is second (completion 1)).
      unfold _cmd_cam. unfold_monad. rewrite_send Hsend. eval_reply_is.
      match goal with
      | |- context [recv_packet ?st] =>
          replace (recv_packet st) with (Returns second s2) by (symmetry; exact Hrecv)
      end.
      cbv beta iota. unfold_monad.
      change (reply_is second (bytes [0x90; 0x51; 0xFF])) with verdict.
      destruct verdict; reflexivity.
    - pose proof (send_packet_reply (prefix +:+ subcmd) 1
                    (line (incoming (ack 2) ++ script) t h)
                    (mk_pyserial (incoming (ack 2) ++ script) 0 t)
                    (bytes [0x90; 0x42]) script
                    eq_refl eq_refl eq_refl eq_refl) as Hsend.
      specialize (Hsend ltac:(vm_compute; lia) eq_refl).
      set (verdict := reply_is second (completion 2)).
      unfold _cmd_cam. unfold_monad. rewrite_send Hsend. eval_reply_is.
      match goal with
      | |- context [recv_packet ?st] =>
          replace (recv_packet st) with (Returns second s2) by (symmetry; exact Hrecv)
      end.
      cbv beta iota. unfold_monad.
      change (reply_is second (bytes [0x90; 0x52; 0xFF])) with verdict.
      destruct verdict; reflexivity. }
  assert (Hother : completion (3 - socket) <> completion socket)
    by (destruct Hsocket as [-> | ->]; discriminate).
  rewrite Hrun.
  destruct (reply_is second (completion socket)) eqn:Hsecond.
  - apply reply_is_true in Hsecond. exists (PyBool true).
    split; [reflexivity |]. split; [reflexivity |].
    split; [intros Hne; contradiction |].
    split; [intros Hcross; congruence |].
    split; [intros _; exact Hsecond | reflexivity].
  - apply reply_is_false in Hsecond. exists PyNone.
    split; [reflexivity |]. split; [intros Heq; contradiction |].
    split; [reflexivity |]. split; [reflexivity |].
    split; [discriminate | intros Heq; contradiction].
Qed.

Lemma cmd_cam_pairing_witness :
  exists v : value,
    _cmd_cam (bytes [0x00; 0x02]) default_prefix
      (line (incoming (ack 1) ++ incoming (completion 2)) [] [])
    = Returns v
        (mk_Serial false
           (Some (mk_pyserial [] 0 [bytes [0x81; 0x01; 0x04; 0x00; 0x02; 0xFF]]))
           [Acquire; Sent (bytes [0x81; 0x01; 0x04; 0x00; 0x02; 0xFF]);
            Recv (Some (ack 1)); Release; Recv (Some (completion 2))]) /\
    (Some (completion 2) = Some (completion 1) -> v = PyBool true) /\
    (Some (completion 2) <> Some (completion 1) -> v = PyNone) /\
    (Some (completion 2) = Some (completion (3 - 1)) -> v = PyNone) /\
    (v = PyBool true <-> Some (completion 2) = Some (completion 1)).
Proof.
  apply (cmd_cam_pairing (bytes [0x00; 0x02]) default_prefix 1
           (incoming (completion 2)) [] [] (Some (completion 2))).
  - left. reflexivity.
  - vm_compute. reflexivity.
Defined.

(** The four pairs of an Ack and a Completion, on any line with a free lock
    and nothing stale in its buffer, whatever arrives after the two frames:
    the matched pairs give [True], the crossed ones [None]. *)
Lemma cmd_cam_pairs (subcmd prefix : string)
    (rest : list (option ascii)) (t : list string) (h : list event) :
  Forall
    (fun '(first, second, answer) =>
       exists s' : Serial,
         _cmd_cam subcmd prefix
           (line (incoming (ack first) ++ incoming (completion second) ++ rest) t h)
         = Returns answer s' /\ rx <$> port s' = Some rest)
    [(1, 1, PyBool true); (2, 2, PyBool true); (1, 2, PyNone); (2, 1, PyNone)].
Proof.
  repeat constructor; cbv beta iota.
  - destruct (cmd_cam_two_replies subcmd prefix (line _ t h) (mk_pyserial _ 0 t)
                (bytes [0x90; 0x41]) (bytes [0x90; 0x51]) rest
                eq_refl eq_refl eq_refl eq_refl)
      as (s1 & s2 & H1 & H2 & _ & _ & Hrest);
      [vm_compute; lia | reflexivity | vm_compute; lia | reflexivity |].
    exists s2. split; [| exact Hrest].
    unfold _cmd_cam. unfold_monad. rewrite_send H1. eval_reply_is.
    rewrite H2. eval_reply_is. reflexivity.
  - destruct (cmd_cam_two_replies subcmd prefix (line _ t h) (mk_pyserial _ 0 t)
                (bytes [0x90; 0x42]) (bytes [0x90; 0x52]) rest
                eq_refl eq_refl eq_refl eq_refl)
      as (s1 & s2 & H1 & H2 & _ & _ & Hrest);
      [vm_compute; lia | reflexivity | vm_compute; lia | reflexivity |].
    exists s2. split; [| exact Hrest].
    unfold _cmd_cam. unfold_monad. rewrite_send H1. eval_reply_is.
    rewrite H2. eval_reply_is. reflexivity.
  - destruct (cmd_cam_two_replies subcmd prefix (line _ t h) (mk_pyserial _ 0 t)
                (bytes [0x90; 0x41]) (bytes [0x90; 0x52]) rest
                eq_refl eq_refl eq_refl eq_refl)
      as (s1 & s2 & H1 & H2 & _ & _ & Hrest);
      [vm_compute; lia | reflexivity | vm_compute; lia | reflexivity |].
    exists s2. split; [| exact Hrest].
    unfold _cmd_cam. unfold_monad. rewrite_send H1. eval_reply_is.
    rewrite H2. eval_reply_is. reflexivity.
  - destruct (cmd_cam_two_replies subcmd prefix (line _ t h) (mk_pyserial _ 0 t)
                (bytes [0x90; 0x42]) (bytes [0x90; 0x51]) rest
                eq_refl eq_refl eq_refl eq_refl)
      as (s1 & s2 & H1 & H2 & _ & _ & Hrest);
      [vm_compute; lia | reflexivity | vm_compute; lia | reflexivity |].
    exists s2. split; [| exact Hrest].
    unfold _cmd_cam. unfold_monad. rewrite_send H1. eval_reply_is.
    rewrite H2. eval_reply_is. reflexivity.
Qed.

(** ** The reply decoder *)

Lemma int16_hex_group (c : ascii) : int16 (hex_group c) = inr (ord c).
Proof.
  destruct c as [[] [] [] [] [] [] [] []]; reflexivity.
Qed.

Lemma encode_hex_cons (c : ascii) (s : string) :
  encode_hex (String c s) = hex_group c +:+ encode_hex s.
Proof. reflexivity. Qed.

Lemma encode_hex_length (s : string) :
  String.length (encode_hex s) = (2 * String.length s)%nat.
Proof.
  induction s as [|c s IH]; [reflexivity |].
  cbn [encode_hex String.length]. rewrite IH. lia.
Qed.

(** [hex_unpack] appends the groups of the payload to the list it is given;
    it returns that list when the payload has two bytes or more. *)
Lemma hex_unpack_groups (payload : string) :
  forall listt : list string,
    payload <> "" ->
    fst (hex_unpack (encode_hex payload) listt) = listt ++ hex_groups payload /\
    snd (hex_unpack (encode_hex payload) listt)
    = if (String.length payload <=? 1)%nat then None
      else Some (listt ++ hex_groups payload).
Proof.
  induction payload as [|c payload IH]; intros listt Hne; [congruence |].
  destruct payload as [|c' payload].
  - split; reflexivity.
  - destruct (IH (listt ++ [hex_group c])) as [IH1 IH2]; [discriminate |].
    change (encode_hex (String c (String c' payload)))
      with (String (hex_digit (N_of_ascii c / 16))
              (String (hex_digit (N_of_ascii c mod 16))
                 (encode_hex (String c' payload)))).
    cbn [hex_unpack].
    change (encode_hex (String c' payload))
      with (String (hex_digit (N_of_ascii c' / 16))
              (String (hex_digit (N_of_ascii c' mod 16)) (encode_hex payload))) at 1 2.
    cbv beta iota.
    change (String (hex_digit (N_of_ascii c' / 16))
              (String (hex_digit (N_of_ascii c' mod 16)) (encode_hex payload)))
      with (encode_hex (String c' payload)).
    change [String (hex_digit (N_of_ascii c / 16))
              (String (hex_digit (N_of_ascii c mod 16)) "")]
      with [hex_group c].
    cbn [fst snd]. rewrite IH1.
    change (hex_groups (String c (String c' payload)))
      with ([hex_group c] ++ hex_groups (String c' payload)).
    rewrite <- app_assoc. split; reflexivity.
Qed.

(** Lines 186-201 on a completion frame [90 50 payload FF]: one byte of
    payload gives its integer value, more bytes give the list of their
    groups. *)
Lemma unpack_completion (payload : string) :
  payload <> "" ->
  unpack (String (xchr 0x90) (String (xchr 0x50) (payload +:+ bytes [0xFF])))
  = if (String.length payload <=? 1)%nat
    then inr (PyInt (match payload with String c _ => ord c | "" => 0 end))
    else inr (PyList (PyStr <$> hex_groups payload)).
Proof.
  intros Hne. unfold unpack. cbn [slice_from].
  change (bytes [255]) with (String (xchr 255) ""). rewrite slice_init_app.
  rewrite encode_hex_length.
  destruct payload as [|c [|c' payload]]; [congruence | |].
  - cbn [String.length Nat.mul Nat.add Nat.ltb Nat.leb].
    change (encode_hex (String c "")) with (hex_group c).
    now rewrite int16_hex_group.
  - replace (2 <? 2 * String.length (String c (String c' payload)))%nat with true
      by (symmetry; apply Nat.ltb_lt; simpl; lia).
    destruct (hex_unpack_groups (String c (String c' payload)) []) as [_ ->];
      [discriminate |].
    reflexivity.
Qed.

(** ** The query handshake: [_come_back] and [_query] *)

(** A completion frame [90 50 payload FF] is handed back as it is, after one
    exchange. *)
Lemma come_back_completion (fuel : nat) (query payload : string)
    (rest : list (option ascii)) (t : list string) (h : list event) :
  (String.length payload <= 13)%nat ->
  terminator_free payload = true ->
  _come_back fuel query
    (line (incoming (String (xchr 0x90) (String (xchr 0x50) (payload +:+ bytes [0xFF]))) ++ rest) t h)
  = Returns (PyStr (String (xchr 0x90) (String (xchr 0x50) (payload +:+ bytes [0xFF]))))
      (after_exchange (String (xchr 0x81) (query +:+ bytes [0xFF]))
         (String (xchr 0x90) (String (xchr 0x50) (payload +:+ bytes [0xFF]))) rest t h).
Proof.
  intros Hlen Hfree.
  assert (Hsend :
    _send_packet query 1
      (line (incoming (String (xchr 0x90) (String (xchr 0x50) (payload +:+ bytes [0xFF]))) ++ rest) t h)
    = Returns (Some (String (xchr 0x90) (String (xchr 0x50) (payload +:+ bytes [0xFF]))))
        (after_exchange (String (xchr 0x81) (query +:+ bytes [0xFF]))
           (String (xchr 0x90) (String (xchr 0x50) (payload +:+ bytes [0xFF]))) rest t h)).
  { assert (Hl : (String.length (String (xchr 0x90) (String (xchr 0x50) payload)) < 16)%nat)
      by (simpl; lia).
    assert (Hf : terminator_free (String (xchr 0x90) (String (xchr 0x50) payload)) = true).
    { unfold terminator_free in *. cbn [list_ascii_of_string forallb].
      now rewrite Hfree. }
    exact (send_packet_reply query 1 (line _ t h) (mk_pyserial _ 0 t)
             (String (xchr 0x90) (String (xchr 0x50) payload)) rest
             eq_refl eq_refl eq_refl eq_refl Hl Hf). }
  assert (Hstep : forall k : M value,
    (reply ← _send_packet query 1;
     if reply_is reply (bytes [0x90; 0x60; 0x03; 0xFF]) then k
     else match reply with
          | None => raise AttributeError
          | Some r =>
              if startswith r (bytes [0x90; 0x50]) then mret (PyStr r)
              else if (r =? bytes [0x90; 0x60; 0x02; 0xFF])%string then mret (PyBool false)
              else mret PyNone
          end)
      (line (incoming (String (xchr 0x90) (String (xchr 0x50) (payload +:+ bytes [0xFF]))) ++ rest) t h)
    = Returns (PyStr (String (xchr 0x90) (String (xchr 0x50) (payload +:+ bytes [0xFF]))))
        (after_exchange (String (xchr 0x81) (query +:+ bytes [0xFF]))
           (String (xchr 0x90) (String (xchr 0x50) (payload +:+ bytes [0xFF]))) rest t h)).
  { intros k. unfold_monad. rewrite Hsend. cbv beta iota.
    cbn [reply_is bytes fold_right String.eqb].
    change (Ascii.eqb (xchr 144) (xchr 144)) with true.
    change (Ascii.eqb (xchr 80) (xchr 96)) with false. cbv iota.
    unfold startswith. cbn [String.prefix].
    destruct (ascii_dec (xchr 144) (xchr 144)); [| congruence].
    destruct (ascii_dec (xchr 80) (xchr 80)); [| congruence].
    replace (String.prefix "" (payload +:+ String (xchr 255) "")) with true
      by (now destruct (payload +:+ String (xchr 255) "")).
    reflexivity. }
  destruct fuel; cbn [_come_back]; apply Hstep.
Qed.

Lemma translate_plain (answers : gmap string (gmap Z value))
    (high_res_params very_high_res_params : gset string)
    (hex_to_int : value -> exn + value)
    (visca_to_degree : value -> string -> exn + value)
    (function : string) (reply : value) :
  function ∉ high_res_params ->
  function ∉ very_high_res_params ->
  answers !! function = None ->
  function <> "color_gain" ->
  function <> "color_hue" ->
  function <> "pan_tilt" ->
  translate answers high_res_params very_high_res_params hex_to_int visca_to_degree
    function reply
  = inr reply.
Proof.
  intros Hh Hv Ha Hg Hu Hp. unfold translate.
  rewrite !bool_decide_eq_false_2 by assumption.
  unfold mbind, result_bind. rewrite Ha.
  apply String.eqb_neq in Hg, Hu, Hp. rewrite Hg, Hu, Hp.
  destruct ((function =? "NR")%string || (function =? "gamma")%string
            || (function =? "chromasuppress")%string); reflexivity.
Qed.

(** C8, as the code has it: on a completion frame [90 50 payload FF], for a
    property that has no translation of its own (it has no table of answers,
    is in neither list of high-resolution properties and is not the pan, the
    tilt, the colour gain or the colour hue), [_query] returns the payload
    alone, without the two leading bytes and without the terminator: a
    payload of one byte as the integer value of that byte, between 0 and 255,
    and a longer one as the list of the two-digit groups of its bytes, in
    order. *)
Theorem query_returns_stripped_payload
    (queries : gmap string string) (answers : gmap string (gmap Z value))
    (high_res_params very_high_res_params : gset string)
    (hex_to_int : value -> exn + value)
    (visca_to_degree : value -> string -> exn + value)
    (function subcmd payload : string)
    (rest : list (option ascii)) (t : list string) (h : list event) (fuel : nat) :
  function <> "" ->
  function <> "pan" -> function <> "tilt" -> function <> "pan_tilt" ->
  function <> "color_gain" -> function <> "color_hue" ->
  queries !! function = Some subcmd ->
  function ∉ high_res_params ->
  function ∉ very_high_res_params ->
  answers !! function = None ->
  (1 <= String.length payload <= 13)%nat ->
  terminator_free payload = true ->
  exists (v : value) (s' : Serial),
    _query queries answers high_res_params very_high_res_params hex_to_int
      visca_to_degree (S fuel) (Some function)
      (line (incoming (String (xchr 0x90) (String (xchr 0x50) (payload +:+ bytes [0xFF])))
             ++ rest) t h)
    = Returns v s' /\
    (forall c : ascii, payload = String c "" -> v = PyInt (ord c) /\ 0 <= ord c <= 255) /\
    ((2 <= String.length payload)%nat -> v = PyList (PyStr <$> hex_groups payload)) /\
    Forall2 (fun group c => int16 group = inr (ord c))
      (hex_groups payload) (list_ascii_of_string payload).
Proof.
  intros Hne Hpan Htilt Hpt Hgain Hhue Hq Hh Hv Ha Hlen Hfree.
  assert (Hgroups : Forall2 (fun group c => int16 group = inr (ord c))
                      (hex_groups payload) (list_ascii_of_string payload)).
  { unfold hex_groups. induction (list_ascii_of_string payload) as [|c l IH];
      constructor; [apply int16_hex_group | exact IH]. }
  assert (Hpayload : payload <> "") by (destruct payload; [simpl in Hlen; lia | discriminate]).
  assert (Hrun :
    _query queries answers high_res_params very_high_res_params hex_to_int
      visca_to_degree (S fuel) (Some function)
      (line (incoming (String (xchr 0x90) (String (xchr 0x50) (payload +:+ bytes [0xFF])))
             ++ rest) t h)
    = lift (unpack (String (xchr 0x90) (String (xchr 0x50) (payload +:+ bytes [0xFF]))))
        (after_exchange (String (xchr 0x81) ((bytes [0x09] +:+ subcmd) +:+ bytes [0xFF]))
           (String (xchr 0x90) (String (xchr 0x50) (payload +:+ bytes [0xFF]))) rest t h)).
  { cbn [_query].
    apply String.eqb_neq in Hne, Hpan, Htilt. rewrite Hne, Hpan, Htilt.
    cbn [orb]. rewrite Hq. unfold_monad.
    rewrite come_back_completion by (assumption || lia).
    cbn [truthy String.eqb negb].
    rewrite unpack_completion by assumption.
    destruct (String.length payload <=? 1)%nat; unfold_monad; cbv beta iota;
      rewrite translate_plain by assumption; reflexivity. }
  rewrite Hrun, unpack_completion by assumption.
  destruct payload as [|c [|c' payload]]; [congruence | |].
  - eexists. eexists. split; [reflexivity |]. split; [| split; [| exact Hgroups]].
    + intros c0 [= <-]. split; [reflexivity | apply ord_range].
    + simpl. lia.
  - eexists. eexists. split; [reflexivity |]. split; [| split; [| exact Hgroups]].
    + discriminate.
    + reflexivity.
Qed.

Lemma query_returns_stripped_payload_witness :
  exists (v : value) (s' : Serial),
    sample_query 1 (Some "power")
      (line (incoming (String (xchr 0x90) (String (xchr 0x50) (one_byte +:+ bytes [0xFF])))
             ++ []) [] [])
    = Returns v s' /\
    (forall c : ascii, one_byte = String c "" -> v = PyInt (ord c) /\ 0 <= ord c <= 255) /\
    ((2 <= String.length one_byte)%nat -> v = PyList (PyStr <$> hex_groups one_byte)) /\
    Forall2 (fun group c => int16 group = inr (ord c))
      (hex_groups one_byte) (list_ascii_of_string one_byte).
Proof.
  apply (query_returns_stripped_payload sample_queries ∅ ∅ ∅ sample_hex_to_int
           sample_visca_to_degree "power" (bytes [0x04; 0x00]) one_byte [] [] [] 0);
    try discriminate; try reflexivity; try (vm_compute; lia).
Defined.

(** C8 fails as stated: a successful query does not always hand the stripped
    payload to its caller.  With a table of answers for [power], the reply
    [90 50 03 FF] is returned as the label that the table has for 3, here
    [False], and not as the integer 3; and the reply [90 50 00 00 00 0E FF]
    to the inquiry of the colour gain is returned as the text [200%], not as
    its four groups. *)
Lemma query_returns_translated_value :
  (exists s' : Serial,
     _query sample_queries {[ "power" := {[ 2 := PyBool true; 3 := PyBool false ]} ]}
       ∅ ∅ sample_hex_to_int sample_visca_to_degree 1 (Some "power")
       (connected (incoming (bytes [0x90; 0x50; 0x03; 0xFF])))
     = Returns (PyBool false) s') /\
  PyBool false <> PyInt 3 /\
  (exists s' : Serial,
     sample_query 1 (Some "color_gain") (connected (incoming (scaled_reply 0x0E)))
     = Returns (PyStr "200%") s') /\
  PyStr "200%" <> PyList (PyStr <$> hex_groups (bytes [0x00; 0x00; 0x00; 0x0E])).
Proof.
  split; [eexists; vm_compute; reflexivity |].
  split; [discriminate |].
  split; [eexists; vm_compute; reflexivity | discriminate].
Qed.

(** C10, as the code has it: when no property name is given, or an empty
    one, or when the name under which the property is looked up ([pan_tilt]
    for [pan] and [tilt], the name itself otherwise) has no code in the table
    of queries, [_query] returns [False] and leaves the transport as it was:
    nothing is written, nothing is read, the lock is not touched. *)
Theorem query_unknown_property_no_io
    (queries : gmap string string) (answers : gmap string (gmap Z value))
    (high_res_params very_high_res_params : gset string)
    (hex_to_int : value -> exn + value)
    (visca_to_degree : value -> string -> exn + value)
    (fuel : nat) (function : option string) (s : Serial) :
  function = None \/
  (exists f : string,
     function = Some f /\ (f = "" \/ queries !! looked_up f = None)) ->
  _query queries answers high_res_params very_high_res_params hex_to_int
    visca_to_degree fuel function s
  = Returns (PyBool false) s.
Proof.
  intros [-> | (f & -> & Hf)].
  - destruct fuel; reflexivity.
  - destruct Hf as [-> | Hnone].
    + destruct fuel; reflexivity.
    + unfold looked_up in Hnone.
      destruct fuel; cbn [_query]; destruct (f =? "")%string; try reflexivity;
        rewrite Hnone; reflexivity.
Qed.

Lemma query_unknown_property_no_io_witness :
  sample_query 3 (Some "shutter") silent_line = Returns (PyBool false) silent_line.
Proof.
  apply (query_unknown_property_no_io sample_queries ∅ ∅ ∅ sample_hex_to_int
           sample_visca_to_degree 3 (Some "shutter") silent_line).
  right. exists "shutter". split; [reflexivity |]. right. reflexivity.
Defined.

(** C10 fails as stated: [pan] has no code in the table of queries, and yet
    [_query('pan')] looks [pan_tilt] up, writes the inquiry [81 09 06 12 FF]
    to the line and reads the reply. *)
Lemma query_pan_does_io :
  sample_queries !! "pan" = None /\
  exists (v : value) (s' : Serial),
    sample_query 1 (Some "pan")
      (connected (incoming (bytes [0x90; 0x50; 0; 1; 2; 3; 0; 4; 5; 6; 0xFF])))
    = Returns v s' /\
    v <> PyBool false /\
    tx <$> port s' = Some [bytes [0x81; 0x09; 0x06; 0x12; 0xFF]] /\
    rx <$> port s' = Some [].
Proof.
  split; [reflexivity |].
  eexists. eexists. split; [vm_compute; reflexivity |].
  split; [discriminate | split; reflexivity].
Qed.

(** On a full buffer the same query is sent again, on the line as the first
    exchange left it, and whatever this second attempt returns, the first one
    returns [None]. *)
Lemma come_back_buffer_full (fuel : nat) (query : string)
    (rest : list (option ascii)) (t : list string) (h : list event) :
  _come_back (S fuel) query (line (incoming buffer_full ++ rest) t h)
  = (_come_back fuel query ;; mret PyNone)
      (after_exchange (String (xchr 0x81) (query +:+ bytes [0xFF])) buffer_full rest t h).
Proof.
  assert (Hsend := send_packet_reply query 1 (line _ t h) (mk_pyserial _ 0 t)
                     (bytes [0x90; 0x60; 0x03]) rest eq_refl eq_refl eq_refl eq_refl).
  specialize (Hsend ltac:(vm_compute; lia) eq_refl).
  cbn [_come_back]. unfold_monad. rewrite_send Hsend.
  eval_reply_is. reflexivity.
Qed.

(** An exchange without a usable reply makes [_come_back] raise. *)
Lemma come_back_no_reply (fuel : nat) (query : string) (s s' : Serial) :
  _send_packet query 1 s = Returns None s' ->
  _come_back fuel query s = Raises AttributeError s'.
Proof.
  intros Hsend. destruct fuel; cbn [_come_back]; unfold_monad; now rewrite Hsend.
Qed.

(** Without a connection [_send_packet] takes the lock and keeps it. *)
Lemma send_packet_no_connection (data : string) (r : Z) (s : Serial) :
  mutex s = false ->
  port s = None ->
  exists s' : Serial,
    _send_packet data r s = Returns None s' /\ mutex s' = true /\ port s' = None.
Proof.
  intros Hm Hp. destruct s as [m p h]. simpl in Hm, Hp. subst m p.
  unfold _send_packet. rewrite encode_ok. eexists. split; [reflexivity |].
  split; reflexivity.
Qed.

(** ** Fuel *)

(** An outcome other than the exhaustion of the fuel is an outcome of the
    code, and more fuel does not change it. *)
Lemma come_back_more_fuel (n : nat) :
  forall (query : string) (s : Serial),
    _come_back n query s <> OutOfFuel ->
    forall k : nat, _come_back (n + k) query s = _come_back n query s.
Proof.
  induction n as [|n IH]; intros query s Hdef k.
  - destruct k as [|k]; [reflexivity |].
    cbn [Nat.add _come_back] in *. unfold_monad. unfold mbind, M_bind, bind in Hdef.
    destruct (_send_packet query 1 s) as [reply s1 | | |]; try reflexivity.
    destruct (reply_is reply (bytes [144; 96; 3; 255])); [| reflexivity].
    now contradict Hdef.
  - cbn [Nat.add _come_back] in *. unfold_monad. unfold mbind, M_bind, bind in Hdef.
    destruct (_send_packet query 1 s) as [reply s1 | | |]; try reflexivity.
    destruct (reply_is reply (bytes [144; 96; 3; 255])); [| reflexivity].
    rewrite IH; [reflexivity |].
    intros Hout. apply Hdef. now rewrite Hout.
Qed.

Lemma query_more_fuel
    (queries : gmap string string) (answers : gmap string (gmap Z value))
    (high_res_params very_high_res_params : gset string)
    (hex_to_int : value -> exn + value)
    (visca_to_degree : value -> string -> exn + value) (n : nat) :
  forall (function : option string) (s : Serial),
    _query queries answers high_res_params very_high_res_params hex_to_int
      visca_to_degree n function s <> OutOfFuel ->
    forall k : nat,
      _query queries answers high_res_params very_high_res_params hex_to_int
        visca_to_degree (n + k) function s
      = _query queries answers high_res_params very_high_res_params hex_to_int
          visca_to_degree n function s.
Proof.
  induction n as [|n IH]; intros function s Hdef k.
  - destruct k as [|k]; [reflexivity |].
    cbn [Nat.add _query] in *.
    destruct function as [f |]; [| reflexivity].
    destruct (f =? "")%string; [reflexivity |].
    destruct (queries !! _); [| reflexivity].
    now contradict Hdef.
  - cbn [Nat.add _query] in *.
    destruct function as [f |]; [| reflexivity].
    destruct (f =? "")%string; [reflexivity |].
    destruct (queries !! _) as [subcmd |]; [| reflexivity].
    unfold mbind, M_bind, bind in *.
    assert (Hcb : _come_back n (bytes [9] +:+ subcmd) s <> OutOfFuel).
    { intros Hout. apply Hdef. now rewrite Hout. }
    rewrite (come_back_more_fuel n _ s Hcb k).
    destruct (_come_back n (bytes [9] +:+ subcmd) s) as [reply s1 | | |];
      try reflexivity.
    destruct reply; try reflexivity.
    now apply IH.
Qed.

(** Run a query of the sample tables with the least fuel that decides it. *)
Ltac least_fuel :=
  unfold sample_query;
  first [ rewrite query_more_fuel by (vm_compute; discriminate)
        | rewrite come_back_more_fuel by (vm_compute; discriminate) ];
  vm_compute; reflexivity.

(** C2: on a full buffer the same query is written again, but the reply to
    the retransmission is lost: whatever the second attempt returns, the
    first returns [None].  When the camera answers BufferFull twice and
    then the completion [90 50 12 FF], [_come_back] has written the query
    three times and returns [None], not the completion: the call it makes on
    itself has no [return].  [_query] takes this [None] for a missing answer
    and writes the query a fourth time; with nothing more on the line it
    stops on an [AttributeError], the lock still held.  The caller sees the
    value 0x12 only if the camera answers this fourth query too. *)
Theorem query_buffer_full_twice_then_completion
    (fuel : nat) (query : string)
    (rest : list (option ascii)) (t : list string) (h : list event) :
  let script :=
    incoming buffer_full ++ incoming buffer_full ++ incoming (bytes [0x90; 0x50; 0x12; 0xFF]) in
  _come_back (S fuel) query (line (incoming buffer_full ++ rest) t h)
  = (_come_back fuel query ;; mret PyNone)
      (line rest (t ++ [String (xchr 0x81) (query +:+ bytes [0xFF])])
         (h ++ [Acquire; Sent (String (xchr 0x81) (query +:+ bytes [0xFF]));
                Recv (Some buffer_full); Release])) /\
  (exists s' : Serial,
     _come_back (2 + fuel) (bytes [0x09; 0x04; 0x00]) (connected script) = Returns PyNone s' /\
     tx <$> port s' = Some [power_inquiry; power_inquiry; power_inquiry] /\
     rx <$> port s' = Some []) /\
  (exists s' : Serial,
     sample_query (3 + fuel) (Some "power") (connected script) = Raises AttributeError s' /\
     tx <$> port s' = Some [power_inquiry; power_inquiry; power_inquiry; power_inquiry] /\
     mutex s' = true) /\
  (exists s' : Serial,
     sample_query (3 + fuel) (Some "power")
       (connected (script ++ incoming (bytes [0x90; 0x50; 0x12; 0xFF])))
     = Returns (PyInt 0x12) s' /\
     tx <$> port s' = Some [power_inquiry; power_inquiry; power_inquiry; power_inquiry]).
Proof.
  cbv zeta. split; [apply come_back_buffer_full |].
  split; [| split]; eexists; (split; [least_fuel |]); repeat split.
Qed.

(** C4: the lock does not cover the exchange.  A command acknowledged on
    socket 1 and completed has its completion frame read after the lock was
    released; and a command that gets no answer (no connection after a failed
    [open], or a line that stays silent) returns with the lock held, so that
    the next command waits for the lock for ever. *)
Theorem command_exchange_lock (fuel : nat) :
  (exists s' : Serial,
     _cmd_cam (bytes [0x00; 0x02]) (bytes [0x01; 0x04])
       (connected (incoming (ack 1) ++ incoming (completion 1)))
     = Returns (PyBool true) s' /\
     history s' = [Acquire; Sent (bytes [0x81; 0x01; 0x04; 0x00; 0x02; 0xFF]);
                   Recv (Some (ack 1)); Release; Recv (Some (completion 1))] /\
     under_lock false (history s') = false) /\
  (exists s0 s1 s2 : Serial,
     open None Serial_init = Returns tt s0 /\
     mutex s0 = false /\ port s0 = None /\
     _cmd_cam (bytes [0x00; 0x02]) (bytes [0x01; 0x04]) s0 = Returns PyNone s1 /\
     mutex s1 = true /\
     under_lock false (history s1) = false /\
     _cmd_cam (bytes [0x00; 0x02]) (bytes [0x01; 0x04]) s1 = Blocks s2) /\
  (exists s1 s2 : Serial,
     _cmd_cam (bytes [0x00; 0x02]) (bytes [0x01; 0x04]) silent_line = Returns PyNone s1 /\
     mutex s1 = true /\
     sample_query (1 + fuel) (Some "power") s1 = Blocks s2).
Proof.
  split; [| split].
  - eexists. split; [vm_compute; reflexivity |]. split; reflexivity.
  - do 3 eexists. split; [vm_compute; reflexivity |].
    do 2 (split; [reflexivity |]).
    split; [vm_compute; reflexivity |]. do 2 (split; [reflexivity |]).
    vm_compute; reflexivity.
  - do 2 eexists. split; [vm_compute; reflexivity |]. split; [reflexivity |].
    least_fuel.
Qed.

(** C5: a reply that is cut short or malformed makes the query handshake
    stop on an exception, it is not taken for a missing answer.  When the
    reply [90 50 12] ends without its terminator, when sixteen bytes arrive
    without a terminator, and when nothing arrives at all, [_send_packet]
    gives [None] and [_come_back] calls [startswith] on it: the
    [AttributeError] leaves [_query] before its test [reply == None], and the
    query was written once only.  In the last case the lock stays held. *)
Theorem query_unterminated_reply_raises (fuel : nat) :
  (exists s' : Serial,
     sample_query (1 + fuel) (Some "power") (connected (incoming (bytes [0x90; 0x50; 0x12])))
     = Raises AttributeError s' /\
     tx <$> port s' = Some [power_inquiry] /\ mutex s' = false) /\
  (exists s' : Serial,
     sample_query (1 + fuel) (Some "power")
       (connected (incoming (bytes [0x90; 0x50; 1; 2; 3; 4; 5; 6; 7; 8; 9; 10; 11; 12; 13; 14])))
     = Raises AttributeError s' /\
     tx <$> port s' = Some [power_inquiry] /\ mutex s' = false) /\
  (exists s' : Serial,
     sample_query (1 + fuel) (Some "power") silent_line = Raises AttributeError s' /\
     tx <$> port s' = Some [power_inquiry] /\ mutex s' = true).
Proof.
  split; [| split]; eexists; (split; [least_fuel |]); split; reflexivity.
Qed.

(** C7: the decoder of the scaled properties takes the fourth group of the
    reply and rescales it from 0..14 to 60..200.  For the gain, the group 0E
    gives ["200%"] and the group 00 gives ["60%"].  For the hue the same range
    60..200 is used, with a degree sign: the group 0E gives 200 degrees and
    the group 00 gives 60 degrees, not the two ends of a symmetric range. *)
Theorem scaled_gain_and_hue
    (queries : gmap string string) (answers : gmap string (gmap Z value))
    (high_res_params very_high_res_params : gset string)
    (hex_to_int : value -> exn + value)
    (visca_to_degree : value -> string -> exn + value)
    (function subcmd : string)
    (rest : list (option ascii)) (t : list string) (h : list event) (fuel : nat) :
  function = "color_gain" \/ function = "color_hue" ->
  queries !! function = Some subcmd ->
  function ∉ high_res_params ->
  function ∉ very_high_res_params ->
  answers !! function = None ->
  let unit := if (function =? "color_gain")%string then "%" else degree_sign in
  (exists s' : Serial,
     _query queries answers high_res_params very_high_res_params hex_to_int
       visca_to_degree (S fuel) (Some function)
       (line (incoming (scaled_reply 0x0E) ++ rest) t h)
     = Returns (PyStr ("200" +:+ unit)) s') /\
  (exists s' : Serial,
     _query queries answers high_res_params very_high_res_params hex_to_int
       visca_to_degree (S fuel) (Some function)
       (line (incoming (scaled_reply 0x00) ++ rest) t h)
     = Returns (PyStr ("60" +:+ unit)) s').
Proof.
  intros Hf Hq Hh Hv Ha unit.
  assert (Hrun : forall group : Z,
    terminator_free (bytes [0; 0; 0; group]) = true ->
    _query queries answers high_res_params very_high_res_params hex_to_int
      visca_to_degree (S fuel) (Some function)
      (line (incoming (scaled_reply group) ++ rest) t h)
    = (reply ← lift (unpack (scaled_reply group));
       lift (translate answers high_res_params very_high_res_params hex_to_int
               visca_to_degree function reply))
        (after_exchange (String (xchr 0x81) ((bytes [0x09] +:+ subcmd) +:+ bytes [0xFF]))
           (scaled_reply group) rest t h)).
  { intros group Hfree. cbn [_query].
    replace (function =? "")%string with false by (now destruct Hf as [-> | ->]).
    replace ((function =? "pan")%string || (function =? "tilt")%string) with false
      by (now destruct Hf as [-> | ->]).
    rewrite Hq. unfold_monad.
    change (scaled_reply group)
      with (String (xchr 0x90) (String (xchr 0x50) (bytes [0; 0; 0; group] +:+ bytes [0xFF]))).
    rewrite come_back_completion by (assumption || (simpl; lia)).
    reflexivity. }
  assert (Htr : forall reply : value,
    translate answers high_res_params very_high_res_params hex_to_int
      visca_to_degree function reply
    = (group ← index reply 3;
       reply ← int16_of group;
       inr (PyStr (str_of_int (scale reply 0 14 60 200) +:+ unit)))).
  { intros reply. unfold translate.
    rewrite !bool_decide_eq_false_2 by assumption.
    unfold mbind, result_bind. rewrite Ha. subst unit.
    destruct Hf as [-> | ->]; cbn [String.eqb Ascii.eqb Bool.eqb orb];
      destruct (index reply 3) as [e | group]; try reflexivity;
      destruct (int16_of group); reflexivity. }
  split; eexists; (rewrite Hrun by reflexivity); unfold_monad;
    [change (unpack (scaled_reply 14))
       with (inr (PyList [PyStr "00"; PyStr "00"; PyStr "00"; PyStr "0e"]) : exn + value)
    |change (unpack (scaled_reply 0))
       with (inr (PyList [PyStr "00"; PyStr "00"; PyStr "00"; PyStr "00"]) : exn + value)];
    unfold_monad; cbv beta iota; rewrite Htr; reflexivity.
Qed.

Lemma scaled_gain_and_hue_witness :
  (exists s' : Serial,
     sample_query 1 (Some "color_hue") (line (incoming (scaled_reply 0x0E) ++ []) [] [])
     = Returns (PyStr ("200" +:+ degree_sign)) s') /\
  (exists s' : Serial,
     sample_query 1 (Some "color_hue") (line (incoming (scaled_reply 0x00) ++ []) [] [])
     = Returns (PyStr ("60" +:+ degree_sign)) s').
Proof.
  apply (scaled_gain_and_hue sample_queries ∅ ∅ ∅ sample_hex_to_int
           sample_visca_to_degree "color_hue" (bytes [0x04; 0x4F]) [] [] [] 0).
  - right. reflexivity.
  - reflexivity.
  - apply not_elem_of_empty.
  - apply not_elem_of_empty.
  - reflexivity.
Defined.

(** * Further properties of the transport *)

(** ** [recv_packet] on any line *)

Lemma terminator_free_app (a b : string) :
  terminator_free (a +:+ b) = terminator_free a && terminator_free b.
Proof.
  unfold terminator_free. induction a as [|c a IH]; [reflexivity |].
  rewrite str_app_cons. cbn [list_ascii_of_string forallb]. rewrite IH.
  now rewrite andb_assoc.
Qed.

Lemma incoming_app (a b : string) : incoming (a +:+ b) = incoming a ++ incoming b.
Proof.
  unfold incoming. induction a as [|c a IH]; [reflexivity |].
  rewrite str_app_cons. cbn [list_ascii_of_string fmap list_fmap].
  cbn [list_ascii_of_string] in IH. simpl. f_equal. exact IH.
Qed.

Lemma incoming_length (a : string) : length (incoming a) = String.length a.
Proof.
  unfold incoming. induction a as [|c a IH]; [reflexivity |].
  simpl. f_equal. exact IH.
Qed.

(** What the loop of [recv_packet] does with the line: it appends to the
    packet the bytes [got] that it takes from the head of the line, at most
    [n] of them, of which only the last can be [0xff]; it stops on [0xff],
    at the byte ceiling, or on a read that times out, which may consume one
    time-out of the script. *)
Lemma recv_loop_spec (n : nat) :
  forall (d : pyserial) (acc : string),
  exists (got : string) (skipped : list (option ascii)),
    fst (recv_loop n d acc) = acc +:+ got /\
    rx d = incoming got ++ skipped ++ rx (snd (recv_loop n d acc)) /\
    tx (snd (recv_loop n d acc)) = tx d /\
    (String.length got <= n)%nat /\
    terminator_free (slice_init got) = true /\
    (skipped = [] \/ skipped = [None]) /\
    (slice_last got = bytes [0xFF] \/ String.length got = n \/
     skipped = [None] \/ (skipped = [] /\ rx (snd (recv_loop n d acc)) = [])).
Proof.
  induction n as [|n IH]; intros d acc.
  - exists "", []. cbn [recv_loop fst snd]. rewrite str_app_nil_r.
    repeat split; auto.
  - cbn [recv_loop]. destruct d as [r w t]. unfold dev_read. cbn [rx in_waiting tx].
    destruct r as [|[c|] r].
    + exists "", []. cbn [fst snd rx tx]. rewrite str_app_nil_r.
      repeat split; auto with arith.
    + rewrite chr_ord. destruct (ord c =? 255) eqn:Ec.
      * exists (String c ""), []. cbn [fst snd rx tx].
        repeat split; auto with arith.
        left. apply Z.eqb_eq in Ec. f_equal.
        rewrite <- (chr_ord c), Ec. reflexivity.
      * destruct (IH (mk_pyserial r (Nat.pred w) t) (acc +:+ String c ""))
          as (got & skipped & Hp & Hrx & Htx & Hlen & Hfree & Hsk & Hend).
        exists (String c got), skipped. cbn [rx tx] in *.
        rewrite Hp, str_app_assoc, str_app_cons, str_app_nil_l.
        split; [reflexivity |]. split; [now rewrite Hrx at 1 |].
        split; [exact Htx |]. split; [simpl; lia |]. split.
        { destruct got as [|g got]; [reflexivity |].
          change (slice_init (String c (String g got)))
            with (String c (slice_init (String g got))).
          unfold terminator_free in *. cbn [list_ascii_of_string forallb].
          unfold terminator. rewrite Ec. exact Hfree. }
        split; [exact Hsk |].
        destruct Hend as [Hend | [Hend | Hend]].
        { destruct got as [|g got]; [discriminate |]. left. exact Hend. }
        { right. left. simpl. now rewrite Hend. }
        { right. right. exact Hend. }
    + exists "", [None]. cbn [fst snd rx tx]. rewrite str_app_nil_r.
      repeat split; auto with arith.
Qed.

(** What [recv_packet] does on a connection, in one statement. *)
Lemma recv_packet_spec (s : Serial) (d : pyserial) :
  port s = Some d ->
  exists (packet : string) (d' : pyserial) (skipped : list (option ascii)),
    recv_packet s
    = Returns (Some packet)
        (mk_Serial (mutex s) (Some d') (history s ++ [Recv (Some packet)])) /\
    rx d = incoming packet ++ skipped ++ rx d' /\
    (skipped = [] \/ skipped = [None]) /\
    tx d' = tx d /\
    (String.length packet <= 16)%nat /\
    terminator_free (slice_init packet) = true.
Proof.
  intros Hport. unfold recv_packet. rewrite Hport.
  destruct (recv_loop_spec 16 d "") as (got & skipped & Hp & Hrx & Htx & Hlen & Hfree & Hsk & _).
  destruct (recv_loop 16 d "") as [packet d'] eqn:E. cbn [fst snd] in *.
  rewrite str_app_nil_l in Hp. subst got.
  exists packet, d', skipped. split; [reflexivity |]. auto 10.
Qed.

(** The byte ceiling: when the bytes that the loop may still read all
    arrive and none of them is [0xff], the loop takes them and stops there,
    whatever follows on the line. *)
Lemma recv_loop_ceiling (body : string) :
  forall (n : nat) (acc : string) (rest : list (option ascii)) (w : nat) (t : list string),
    String.length body = n ->
    terminator_free body = true ->
    recv_loop n (mk_pyserial (incoming body ++ rest) w t) acc
    = (acc +:+ body, mk_pyserial rest (w - String.length body) t).
Proof.
  induction body as [|c body IH]; intros n acc rest w t Hlen Hfree.
  - simpl in Hlen. subst n. cbn. now rewrite str_app_nil_r, Nat.sub_0_r.
  - destruct n as [|n]; [simpl in Hlen; lia |].
    cbn in Hfree. apply andb_true_iff in Hfree as [Hc Hfree].
    apply negb_true_iff in Hc.
    rewrite incoming_cons.
    cbn [recv_loop dev_read rx app in_waiting tx].
    rewrite chr_ord. unfold terminator in Hc. rewrite Hc.
    rewrite IH; [| simpl in Hlen; lia | assumption].
    rewrite str_app_assoc, str_app_cons, str_app_nil_l.
    do 2 f_equal. simpl. lia.
Qed.

(** X1: whenever [recv_packet] returns a packet, the packet has at most 16
    bytes and no byte of it but the last is [0xff]; the lock and what was
    written are as they were, and the packet is the one new entry of the
    history. *)
Theorem recv_packet_shape (s s' : Serial) (packet : string) :
  recv_packet s = Returns (Some packet) s' ->
  (String.length packet <= 16)%nat /\
  terminator_free (slice_init packet) = true /\
  mutex s' = mutex s /\
  tx <$> port s' = tx <$> port s /\
  history s' = history s ++ [Recv (Some packet)].
Proof.
  intros Hrun. destruct (port s) as [d |] eqn:Hport.
  - destruct (recv_packet_spec s d Hport)
      as (p & d' & skipped & Hrecv & _ & _ & Htx & Hlen & Hfree).
    rewrite Hrecv in Hrun. injection Hrun as <- <-.
    cbn [mutex port history]. cbn. rewrite Htx. auto.
  - unfold recv_packet in Hrun. rewrite Hport in Hrun. discriminate Hrun.
Qed.

Lemma recv_packet_shape_witness :
  (String.length (ack 1) <= 16)%nat /\
  terminator_free (slice_init (ack 1)) = true /\
  mutex (mk_Serial false (Some (mk_pyserial (incoming (completion 1)) 0 []))
           [Recv (Some (ack 1))])
  = mutex (connected (incoming (ack 1) ++ incoming (completion 1))) /\
  tx <$> port (mk_Serial false (Some (mk_pyserial (incoming (completion 1)) 0 []))
                 [Recv (Some (ack 1))])
  = tx <$> port (connected (incoming (ack 1) ++ incoming (completion 1))) /\
  history (mk_Serial false (Some (mk_pyserial (incoming (completion 1)) 0 []))
             [Recv (Some (ack 1))])
  = history (connected (incoming (ack 1) ++ incoming (completion 1)))
    ++ [Recv (Some (ack 1))].
Proof.
  apply (recv_packet_shape (connected (incoming (ack 1) ++ incoming (completion 1)))
           (mk_Serial false (Some (mk_pyserial (incoming (completion 1)) 0 []))
              [Recv (Some (ack 1))])
           (ack 1)).
  vm_compute. reflexivity.
Defined.

(** X2: [recv_packet] reads one frame and no more.  On a line that delivers
    a frame, that is bytes up to and including a first [0xff] that comes
    among the first 16, or 16 bytes without [0xff], [recv_packet] returns
    exactly these bytes; what follows them stays on the line, and the lock
    and what was written are not touched. *)
Theorem recv_packet_consumes_its_packet (s : Serial) (d : pyserial) (frame : string)
    (rest : list (option ascii)) :
  port s = Some d ->
  rx d = incoming frame ++ rest ->
  (exists body : string,
     frame = body +:+ bytes [0xFF] /\
     (String.length body < 16)%nat /\ terminator_free body = true) \/
  (String.length frame = 16%nat /\ terminator_free frame = true) ->
  recv_packet s
  = Returns (Some frame)
      (mk_Serial (mutex s)
         (Some (mk_pyserial rest (in_waiting d - String.length frame) (tx d)))
         (history s ++ [Recv (Some frame)])).
Proof.
  intros Hport Hrx [(body & -> & Hlen & Hfree) | [Hlen Hfree]].
  - rewrite (recv_packet_frame s d body rest Hport Hrx Hlen Hfree).
    rewrite str_length_app. change (String.length (bytes [255])) with 1%nat.
    now rewrite Nat.add_1_r.
  - unfold recv_packet. rewrite Hport.
    destruct d as [r w t]. cbn [rx] in Hrx. subst r.
    rewrite (recv_loop_ceiling frame 16 "" rest w t Hlen Hfree).
    now rewrite str_app_nil_l.
Qed.

Lemma recv_packet_consumes_its_packet_witness :
  recv_packet (connected (incoming (ack 1) ++ incoming (completion 1)))
  = Returns (Some (ack 1))
      (mk_Serial (mutex (connected (incoming (ack 1) ++ incoming (completion 1))))
         (Some (mk_pyserial (incoming (completion 1))
                  (in_waiting (mk_pyserial (incoming (ack 1) ++ incoming (completion 1)) 0 [])
                   - String.length (ack 1))
                  (tx (mk_pyserial (incoming (ack 1) ++ incoming (completion 1)) 0 []))))
         (history (connected (incoming (ack 1) ++ incoming (completion 1)))
          ++ [Recv (Some (ack 1))])).
Proof.
  apply (recv_packet_consumes_its_packet
           (connected (incoming (ack 1) ++ incoming (completion 1)))
           (mk_pyserial (incoming (ack 1) ++ incoming (completion 1)) 0 [])
           (ack 1) (incoming (completion 1))).
  - reflexivity.
  - reflexivity.
  - left. exists (bytes [0x90; 0x41]).
    split; [reflexivity |]. split; [vm_compute; lia | reflexivity].
Defined.

(** ** [open] *)

(** X3: [open], called with the lock free, returns with the lock free.  A
    connection that exists is kept as it is; otherwise the port becomes the
    device that could be opened, its input buffer emptied, or stays [None]
    when the device could not be opened. *)
Theorem open_keeps_or_connects (connect : option pyserial) (s : Serial) :
  mutex s = false ->
  exists s' : Serial,
    open connect s = Returns tt s' /\
    mutex s' = false /\
    history s' = history s ++ [Acquire; Release] /\
    port s' = match port s with
              | Some d => Some d
              | None => flushInput <$> connect
              end /\
    (port s = None ->
     forall d : pyserial, connect = Some d ->
       exists d' : pyserial,
         port s' = Some d' /\ in_waiting d' = 0%nat /\
         rx d' = drop (in_waiting d) (rx d) /\ tx d' = tx d).
Proof.
  intros Hm. destruct s as [m p h]. cbn [mutex] in Hm. subst m.
  unfold open. unfold_monad. unfold acquire, release. cbn [mutex port history].
  destruct p as [d |]; cbn [mutex port history].
  - eexists. split; [reflexivity |]. rewrite <- app_assoc.
    repeat split. discriminate.
  - eexists. split; [reflexivity |]. rewrite <- app_assoc.
    repeat split. intros _ d ->. eexists. repeat split.
Qed.

Lemma open_keeps_or_connects_witness :
  exists s' : Serial,
    open (Some (mk_pyserial (incoming (completion 1) ++ incoming (ack 1)) 3 [])) Serial_init
    = Returns tt s' /\
    mutex s' = false /\
    history s' = history Serial_init ++ [Acquire; Release] /\
    port s' = match port Serial_init with
              | Some d => Some d
              | None =>
                  flushInput <$>
                    Some (mk_pyserial (incoming (completion 1) ++ incoming (ack 1)) 3 [])
              end /\
    (port Serial_init = None ->
     forall d : pyserial,
       Some (mk_pyserial (incoming (completion 1) ++ incoming (ack 1)) 3 []) = Some d ->
       exists d' : pyserial,
         port s' = Some d' /\ in_waiting d' = 0%nat /\
         rx d' = drop (in_waiting d) (rx d) /\ tx d' = tx d).
Proof.
  apply (open_keeps_or_connects
           (Some (mk_pyserial (incoming (completion 1) ++ incoming (ack 1)) 3 []))
           Serial_init).
  reflexivity.
Defined.

(** ** [_write_packet] and [_send_packet] on any line *)

(** What [_write_packet] does on a connection: whatever waits in the
    buffer, the packet is written once, nothing that was on the line is put
    back, nothing raises. *)
Lemma write_packet_spec (packet : string) (s : Serial) (d : pyserial) :
  port s = Some d ->
  exists (d' : pyserial) (h' : list event),
    _write_packet packet s = Returns tt (mk_Serial (mutex s) (Some d') h') /\
    tx d' = tx d ++ [packet] /\
    (length (rx d') <= length (rx d))%nat /\
    (in_waiting d = 0%nat -> rx d' = rx d /\ in_waiting d' = 0%nat).
Proof.
  intros Hport. destruct s as [m p h]. cbn [port] in Hport. subst p.
  unfold _write_packet. cbn [port]. unfold_monad.
  destruct (in_waiting d =? 0)%nat eqn:Ew.
  - unfold port_write. cbn [port mutex history]. eexists. eexists.
    split; [reflexivity |]. unfold dev_write. cbn [tx rx in_waiting].
    apply Nat.eqb_eq in Ew. repeat split; auto.
  - destruct (recv_packet_spec (mk_Serial m (Some d) h) d eq_refl)
      as (stale & d1 & skipped & Hrecv & Hrx & _ & Htx & _).
    rewrite Hrecv. unfold port_write. cbn [port mutex history].
    eexists. eexists. split; [reflexivity |]. unfold dev_write. cbn [tx rx in_waiting].
    rewrite Htx. split; [reflexivity |]. split.
    + rewrite Hrx, !length_app. lia.
    + intros H0. rewrite H0 in Ew. discriminate.
Qed.

(** The whole of [_send_packet] on a connection whose lock is free. *)
Lemma send_packet_spec (data : string) (r : Z) (s : Serial) (d : pyserial) :
  mutex s = false ->
  port s = Some d ->
  exists (reply : option string) (s' : Serial) (d' : pyserial),
    _send_packet data r s = Returns reply s' /\
    port s' = Some d' /\
    tx d' = tx d ++ [String (xchr (header r)) (data +:+ bytes [0xFF])] /\
    (length (rx d') <= length (rx d))%nat /\
    (mutex s' = true -> reply = None) /\
    (forall p : string,
       reply = Some p ->
       mutex s' = false /\
       slice_last p = bytes [0xFF] /\
       (1 <= String.length p <= 16)%nat /\
       terminator_free (slice_init p) = true /\
       (length (rx d') + String.length p <= length (rx d))%nat).
Proof.
  intros Hm Hport. destruct s as [m p h]. cbn [mutex port] in Hm, Hport. subst m p.
  unfold _send_packet. rewrite encode_ok. unfold_monad. cbv beta iota.
  unfold_monad. unfold acquire. cbn [mutex port history]. cbv beta iota.
  destruct (write_packet_spec (String (xchr (header r)) (data +:+ bytes [255]))
              (mk_Serial true (Some d) (h ++ [Acquire])) d eq_refl)
    as (d1 & h1 & Hw & Htx1 & Hlen1 & _).
  rewrite Hw. cbn [mutex]. cbv beta iota.
  destruct (recv_packet_spec (mk_Serial true (Some d1) h1) d1 eq_refl)
    as (packet & d2 & skipped & Hrecv & Hrx & _ & Htx2 & Hl & Hf).
  rewrite Hrecv. cbn [mutex]. cbv beta iota.
  assert (Hlen2 : (length (rx d2) + String.length packet <= length (rx d))%nat).
  { rewrite Hrx, !length_app, incoming_length in Hlen1. lia. }
  destruct (packet =? "")%string eqn:Ee; cbn [negb].
  - eexists. eexists. exists d2. split; [reflexivity |]. cbn [port mutex].
    split; [reflexivity |]. split; [now rewrite Htx2 |]. split; [lia |].
    split; [reflexivity | discriminate].
  - unfold release. cbn [mutex port history].
    eexists. eexists. exists d2. split; [reflexivity |]. cbn [port mutex].
    split; [reflexivity |]. split; [now rewrite Htx2 |]. split; [lia |].
    split; [discriminate |].
    intros p Hp. unfold validate in Hp.
    destruct (slice_last packet =? bytes [255])%string eqn:El; [| discriminate].
    cbn [negb] in Hp. injection Hp as <-.
    apply String.eqb_eq in El. apply String.eqb_neq in Ee.
    split; [reflexivity |]. split; [exact El |]. split; [| split; [exact Hf | exact Hlen2]].
    split; [| exact Hl]. destruct packet; [congruence | simpl; lia].
Qed.

(** A reply comes only from a connection whose lock was free. *)
Lemma send_packet_some_inv (data : string) (r : Z) (s s' : Serial) (p : string) :
  _send_packet data r s = Returns (Some p) s' ->
  mutex s = false /\ exists d : pyserial, port s = Some d.
Proof.
  unfold _send_packet. rewrite encode_ok. unfold_monad. cbv beta iota. unfold_monad.
  unfold acquire. destruct s as [m po h]. cbn [mutex port history].
  destruct m; [discriminate |]. cbv beta iota.
  destruct po as [d |]; [intros _; split; [reflexivity | now exists d] |].
  unfold _write_packet, recv_packet, note. cbn [port mutex history]. cbv beta iota.
  intros H. discriminate H.
Qed.

(** [_send_packet] returns, or waits for the lock. *)
Lemma send_packet_outcome (data : string) (r : Z) (s : Serial) :
  (exists (reply : option string) (s' : Serial), _send_packet data r s = Returns reply s')
  \/ _send_packet data r s = Blocks s.
Proof.
  destruct (mutex s) eqn:Hm.
  - right. unfold _send_packet. rewrite encode_ok. unfold_monad. cbv beta iota.
    unfold_monad. unfold acquire. now rewrite Hm.
  - left. destruct (port s) as [d |] eqn:Hp.
    + destruct (send_packet_spec data r s d Hm Hp) as (reply & s' & _ & Hrun & _).
      now exists reply, s'.
    + destruct (send_packet_no_connection data r s Hm Hp) as (s' & Hrun & _).
      now exists None, s'.
Qed.

(** [_send_packet] returns only when it could take the lock. *)
Lemma send_packet_returns_inv (data : string) (r : Z) (s s' : Serial)
    (reply : option string) :
  _send_packet data r s = Returns reply s' -> mutex s = false.
Proof.
  unfold _send_packet. rewrite encode_ok. unfold_monad. cbv beta iota. unfold_monad.
  unfold acquire. destruct s as [m po h]. cbn [mutex port history].
  destruct m; [discriminate | reflexivity].
Qed.

Lemma send_packet_never_raises (data : string) (r : Z) (s s' : Serial) (e : exn) :
  _send_packet data r s <> Raises e s'.
Proof.
  destruct (send_packet_outcome data r s) as [(reply & s1 & Hrun) | Hrun];
    rewrite Hrun; discriminate.
Qed.

(** X4: whenever [_send_packet] returns on a connection, it has written one
    frame and no more, the header, the data and [0xff]; and a reply that it
    returns has 1 to 16 bytes, ends in [0xff] and holds [0xff] nowhere else,
    the lock being free again.  Besides, [_send_packet] raises nothing of
    its own, in whatever state it is called: the header is always a byte, and
    the lock it releases is a lock it holds. *)
Theorem send_packet_on_return (data : string) (r : Z) (s s' : Serial) (d : pyserial)
    (reply : option string) :
  _send_packet data r s = Returns reply s' ->
  port s = Some d ->
  tx <$> port s' = Some (tx d ++ [String (xchr (header r)) (data +:+ bytes [0xFF])]) /\
  (forall p : string,
     reply = Some p ->
     mutex s' = false /\
     slice_last p = bytes [0xFF] /\
     (1 <= String.length p <= 16)%nat /\
     terminator_free (slice_init p) = true) /\
  (forall (s0 s1 : Serial) (e : exn), _send_packet data r s0 <> Raises e s1).
Proof.
  intros Hrun Hp.
  pose proof (send_packet_returns_inv data r s s' reply Hrun) as Hm.
  destruct (send_packet_spec data r s d Hm Hp)
    as (reply1 & s1 & d' & Hrun1 & Hport & Htx & _ & _ & Hreply).
  rewrite Hrun in Hrun1. injection Hrun1 as <- <-.
  rewrite Hport. cbn. rewrite Htx.
  split; [reflexivity |]. split.
  - intros p Hrp. destruct (Hreply p Hrp) as (H1 & H2 & H3 & H4 & _). auto.
  - intros s0 s1 e. apply send_packet_never_raises.
Qed.

Lemma send_packet_on_return_witness :
  tx <$> port (after_exchange (bytes [0x81; 0x01; 0x04; 0x00; 0x02; 0xFF]) (ack 1)
                 (incoming (completion 1)) [] [])
  = Some (tx (mk_pyserial (incoming (ack 1) ++ incoming (completion 1)) 0 [])
          ++ [String (xchr (header 1)) (power_on +:+ bytes [0xFF])]) /\
  (forall p : string,
     Some (ack 1) = Some p ->
     mutex (after_exchange (bytes [0x81; 0x01; 0x04; 0x00; 0x02; 0xFF]) (ack 1)
              (incoming (completion 1)) [] [])
     = false /\
     slice_last p = bytes [0xFF] /\
     (1 <= String.length p <= 16)%nat /\
     terminator_free (slice_init p) = true) /\
  (forall (s0 s1 : Serial) (e : exn), _send_packet power_on 1 s0 <> Raises e s1).
Proof.
  apply (send_packet_on_return power_on 1
           (connected (incoming (ack 1) ++ incoming (completion 1)))
           (after_exchange (bytes [0x81; 0x01; 0x04; 0x00; 0x02; 0xFF]) (ack 1)
              (incoming (completion 1)) [] [])
           (mk_pyserial (incoming (ack 1) ++ incoming (completion 1)) 0 [])
           (Some (ack 1))).
  - vm_compute. reflexivity.
  - reflexivity.
Defined.

(** X5: when the port reports bytes waiting at the time of a command, the
    frame that waits is read and thrown away before the command is written,
    and the reply to the command is the frame that follows it. *)
Theorem send_packet_drops_stale_reply (data : string) (r : Z)
    (stale body : string) (rest : list (option ascii))
    (w : nat) (t : list string) (h : list event) :
  (0 < w)%nat ->
  (String.length stale < 16)%nat -> terminator_free stale = true ->
  (String.length body < 16)%nat -> terminator_free body = true ->
  exists s' : Serial,
    _send_packet data r
      (mk_Serial false
         (Some (mk_pyserial (incoming (stale +:+ bytes [0xFF])
                             ++ incoming (body +:+ bytes [0xFF]) ++ rest) w t)) h)
    = Returns (Some (body +:+ bytes [0xFF])) s' /\
    mutex s' = false /\
    rx <$> port s' = Some rest /\
    tx <$> port s' = Some (t ++ [String (xchr (header r)) (data +:+ bytes [0xFF])]) /\
    history s'
    = h ++ [Acquire; Recv (Some (stale +:+ bytes [0xFF]));
            Sent (String (xchr (header r)) (data +:+ bytes [0xFF]));
            Recv (Some (body +:+ bytes [0xFF])); Release].
Proof.
  intros Hw Hls Hfs Hlb Hfb.
  unfold _send_packet. rewrite encode_ok. unfold_monad. cbv beta iota. unfold_monad.
  unfold acquire, _write_packet. cbn [mutex port history in_waiting]. cbv beta iota.
  cbn [port in_waiting].
  replace (w =? 0)%nat with false by (symmetry; apply Nat.eqb_neq; lia).
  unfold_monad.
  erewrite recv_packet_frame; [| reflexivity | reflexivity | assumption | assumption].
  cbv beta iota. unfold port_write, dev_write. cbn [mutex port history rx in_waiting tx].
  erewrite recv_packet_frame; [| reflexivity | reflexivity | assumption | assumption].
  cbn [mutex port history rx in_waiting tx].
  replace (body +:+ bytes [255] =? "")%string with false
    by (symmetry; apply String.eqb_neq; destruct body; discriminate).
  cbn [negb]. unfold release. cbn [mutex port history].
  unfold validate. change (bytes [255]) with (String (xchr 255) "").
  rewrite slice_last_app, String.eqb_refl. cbn [negb].
  eexists. split; [reflexivity |]. cbn [mutex port history].
  repeat split. rewrite <- !app_assoc. reflexivity.
Qed.

Lemma send_packet_drops_stale_reply_witness :
  exists s' : Serial,
    _send_packet power_on 1
      (mk_Serial false
         (Some (mk_pyserial (incoming (bytes [0x90; 0x51] +:+ bytes [0xFF])
                             ++ incoming (bytes [0x90; 0x41] +:+ bytes [0xFF]) ++ []) 3 [])) [])
    = Returns (Some (bytes [0x90; 0x41] +:+ bytes [0xFF])) s' /\
    mutex s' = false /\
    rx <$> port s' = Some [] /\
    tx <$> port s' = Some ([] ++ [String (xchr (header 1)) (power_on +:+ bytes [0xFF])]) /\
    history s'
    = [] ++ [Acquire; Recv (Some (bytes [0x90; 0x51] +:+ bytes [0xFF]));
             Sent (String (xchr (header 1)) (power_on +:+ bytes [0xFF]));
             Recv (Some (bytes [0x90; 0x41] +:+ bytes [0xFF])); Release].
Proof.
  apply (send_packet_drops_stale_reply power_on 1 (bytes [0x90; 0x51])
           (bytes [0x90; 0x41]) [] 3 [] []);
    first [reflexivity | vm_compute; lia].
Defined.

(** * Further properties of the command handshake *)

(** The whole of [_cmd_cam] on a connection whose lock is free. *)
Lemma cmd_cam_spec (subcmd prefix : string) (s : Serial) (d : pyserial) :
  mutex s = false ->
  port s = Some d ->
  exists (v : value) (s' : Serial),
    _cmd_cam subcmd prefix s = Returns v s' /\
    tx <$> port s'
    = Some (tx d ++ [String (xchr 0x81) ((prefix +:+ subcmd) +:+ bytes [0xFF])]) /\
    (v = PyBool true \/ v = PyBool false \/ v = PyNone).
Proof.
  intros Hm Hp.
  destruct (send_packet_spec (prefix +:+ subcmd) 1 s d Hm Hp)
    as (reply & s1 & d1 & Hrun & Hport & Htx & _).
  change (xchr (header 1)) with (xchr 0x81) in Htx.
  unfold _cmd_cam. unfold_monad. rewrite Hrun.
  destruct (recv_packet_spec s1 d1 Hport)
    as (p2 & d2 & sk & Hrecv & _ & _ & Htx2 & _).
  assert (Htx' : tx <$> port s1
                 = Some (tx d ++ [String (xchr 129) ((prefix +:+ subcmd) +:+ bytes [255])]))
    by (rewrite Hport; cbn; now rewrite Htx).
  assert (Htx2' : tx <$> Some d2
                  = Some (tx d ++ [String (xchr 129) ((prefix +:+ subcmd) +:+ bytes [255])]))
    by (cbn; now rewrite Htx2, Htx).
  destruct (reply_is reply (bytes [144; 65; 255])).
  { rewrite Hrecv. destruct (reply_is (Some p2) (bytes [144; 81; 255]));
      eexists; eexists; (split; [reflexivity |]); cbn [port]; split; auto. }
  destruct (reply_is reply (bytes [144; 66; 255])).
  { rewrite Hrecv. destruct (reply_is (Some p2) (bytes [144; 82; 255]));
      eexists; eexists; (split; [reflexivity |]); cbn [port]; split; auto. }
  destruct (reply_is reply (bytes [144; 96; 2; 255]));
    [eexists; eexists; (split; [reflexivity |]); split; auto |].
  destruct (reply_is reply (bytes [144; 97; 65; 255]));
    [eexists; eexists; (split; [reflexivity |]); split; auto |].
  destruct (reply_is reply (bytes [144; 98; 65; 255]));
    eexists; eexists; (split; [reflexivity |]); split; auto.
Qed.

Lemma recv_packet_returns (s : Serial) :
  exists (reply : option string) (s' : Serial), recv_packet s = Returns reply s'.
Proof.
  unfold recv_packet. destruct (port s) as [d |]; [| eauto].
  destruct (recv_loop 16 d ""). eauto.
Qed.

Lemma cmd_cam_never_raises (subcmd prefix : string) (s s' : Serial) (e : exn) :
  _cmd_cam subcmd prefix s <> Raises e s'.
Proof.
  unfold _cmd_cam. unfold_monad.
  destruct (send_packet_outcome (prefix +:+ subcmd) 1 s) as [(reply & s1 & Hrun) | Hrun];
    rewrite Hrun; [| discriminate].
  destruct (recv_packet_returns s1) as (r2 & s2 & Hrecv).
  destruct (reply_is reply (bytes [144; 65; 255])).
  { rewrite Hrecv. destruct (reply_is r2 (bytes [144; 81; 255])); discriminate. }
  destruct (reply_is reply (bytes [144; 66; 255])).
  { rewrite Hrecv. destruct (reply_is r2 (bytes [144; 82; 255])); discriminate. }
  destruct (reply_is reply (bytes [144; 96; 2; 255])); [discriminate |].
  destruct (reply_is reply (bytes [144; 97; 65; 255])); [discriminate |].
  destruct (reply_is reply (bytes [144; 98; 65; 255])); discriminate.
Qed.

(** [_cmd_cam] returns only when it could take the lock. *)
Lemma cmd_cam_returns_inv (subcmd prefix : string) (s s' : Serial) (v : value) :
  _cmd_cam subcmd prefix s = Returns v s' -> mutex s = false.
Proof.
  unfold _cmd_cam. unfold_monad.
  destruct (_send_packet (prefix +:+ subcmd) 1 s) as [reply s1 | | |] eqn:Hrun;
    try discriminate.
  intros _. exact (send_packet_returns_inv _ _ _ _ _ Hrun).
Qed.

(** What a return of [_cmd_cam] on a connection tells. *)
Lemma cmd_cam_return_facts (subcmd prefix : string) (s s' : Serial) (d : pyserial)
    (v : value) :
  _cmd_cam subcmd prefix s = Returns v s' ->
  port s = Some d ->
  tx <$> port s'
  = Some (tx d ++ [String (xchr 0x81) ((prefix +:+ subcmd) +:+ bytes [0xFF])]) /\
  (v = PyBool true \/ v = PyBool false \/ v = PyNone).
Proof.
  intros Hrun Hp. pose proof (cmd_cam_returns_inv subcmd prefix s s' v Hrun) as Hm.
  destruct (cmd_cam_spec subcmd prefix s d Hm Hp) as (v1 & s1 & Hrun1 & Htx & Hv).
  rewrite Hrun in Hrun1. injection Hrun1 as <- <-. auto.
Qed.

(** X6: whenever [_cmd_cam] returns on a connection, it has written one frame
    and no more, [81], the prefix, the subcommand and [FF], whatever it has
    read, one reply or two; and what it returns is [True], [False] or [None].
    Besides, [_cmd_cam] raises nothing of its own, in whatever state it is
    called. *)
Theorem cmd_cam_on_return (subcmd prefix : string) (s s' : Serial) (d : pyserial)
    (v : value) :
  _cmd_cam subcmd prefix s = Returns v s' ->
  port s = Some d ->
  tx <$> port s'
  = Some (tx d ++ [String (xchr 0x81) ((prefix +:+ subcmd) +:+ bytes [0xFF])]) /\
  (v = PyBool true \/ v = PyBool false \/ v = PyNone) /\
  (forall (s0 s1 : Serial) (e : exn), _cmd_cam subcmd prefix s0 <> Raises e s1).
Proof.
  intros Hrun Hp.
  destruct (cmd_cam_return_facts subcmd prefix s s' d v Hrun Hp) as [Htx Hv].
  split; [exact Htx |]. split; [exact Hv |].
  intros s0 s1 e. apply cmd_cam_never_raises.
Qed.

Lemma cmd_cam_on_return_witness :
  tx <$> port (mk_Serial false
                 (Some (mk_pyserial [] 0 [bytes [0x81; 0x01; 0x04; 0x00; 0x02; 0xFF]]))
                 [Acquire; Sent (bytes [0x81; 0x01; 0x04; 0x00; 0x02; 0xFF]);
                  Recv (Some (ack 1)); Release; Recv (Some (completion 1))])
  = Some (tx (mk_pyserial (incoming (ack 1) ++ incoming (completion 1)) 0 [])
          ++ [String (xchr 0x81)
                ((default_prefix +:+ bytes [0x00; 0x02]) +:+ bytes [0xFF])]) /\
  (PyBool true = PyBool true \/ PyBool true = PyBool false \/ PyBool true = PyNone) /\
  (forall (s0 s1 : Serial) (e : exn),
     _cmd_cam (bytes [0x00; 0x02]) default_prefix s0 <> Raises e s1).
Proof.
  apply (cmd_cam_on_return (bytes [0x00; 0x02]) default_prefix
           (connected (incoming (ack 1) ++ incoming (completion 1)))
           (mk_Serial false
              (Some (mk_pyserial [] 0 [bytes [0x81; 0x01; 0x04; 0x00; 0x02; 0xFF]]))
              [Acquire; Sent (bytes [0x81; 0x01; 0x04; 0x00; 0x02; 0xFF]);
               Recv (Some (ack 1)); Release; Recv (Some (completion 1))])
           (mk_pyserial (incoming (ack 1) ++ incoming (completion 1)) 0 [])
           (PyBool true)).
  - vm_compute. reflexivity.
  - reflexivity.
Defined.

(** X7: [_cmd_cam] answers [True] only to a matched pair: if it returns
    [True], the reply to the command was the Ack of socket 1 or 2 and the next
    frame read was the Completion of the same socket. *)
Theorem cmd_cam_true_only_if_paired (subcmd prefix : string) (s s' : Serial) :
  _cmd_cam subcmd prefix s = Returns (PyBool true) s' ->
  exists (socket : Z) (s1 : Serial),
    (socket = 1 \/ socket = 2) /\
    _send_packet (prefix +:+ subcmd) 1 s = Returns (Some (ack socket)) s1 /\
    recv_packet s1 = Returns (Some (completion socket)) s'.
Proof.
  unfold _cmd_cam. unfold_monad.
  destruct (_send_packet (prefix +:+ subcmd) 1 s) as [reply s1 | | |]; try discriminate.
  destruct (reply_is reply (bytes [144; 65; 255])) eqn:E1.
  { apply reply_is_true in E1. subst reply.
    destruct (recv_packet s1) as [r2 s2 | | |] eqn:Er; try discriminate.
    destruct (reply_is r2 (bytes [144; 81; 255])) eqn:E2; [| discriminate].
    apply reply_is_true in E2. subst r2. intros [= <-].
    exists 1, s1. split; [now left |]. split; [reflexivity | exact Er]. }
  destruct (reply_is reply (bytes [144; 66; 255])) eqn:E2.
  { apply reply_is_true in E2. subst reply.
    destruct (recv_packet s1) as [r2 s2 | | |] eqn:Er; try discriminate.
    destruct (reply_is r2 (bytes [144; 82; 255])) eqn:E3; [| discriminate].
    apply reply_is_true in E3. subst r2. intros [= <-].
    exists 2, s1. split; [now right |]. split; [reflexivity | exact Er]. }
  destruct (reply_is reply (bytes [144; 96; 2; 255])); [discriminate |].
  destruct (reply_is reply (bytes [144; 97; 65; 255])); [discriminate |].
  destruct (reply_is reply (bytes [144; 98; 65; 255])); discriminate.
Qed.

Lemma cmd_cam_true_only_if_paired_witness :
  exists (socket : Z) (s1 : Serial),
    (socket = 1 \/ socket = 2) /\
    _send_packet (default_prefix +:+ bytes [0x00; 0x02]) 1
      (connected (incoming (ack 2) ++ incoming (completion 2)))
    = Returns (Some (ack socket)) s1 /\
    recv_packet s1
    = Returns (Some (completion socket))
        (mk_Serial false
           (Some (mk_pyserial [] 0 [bytes [0x81; 0x01; 0x04; 0x00; 0x02; 0xFF]]))
           [Acquire; Sent (bytes [0x81; 0x01; 0x04; 0x00; 0x02; 0xFF]);
            Recv (Some (ack 2)); Release; Recv (Some (completion 2))]).
Proof.
  apply (cmd_cam_true_only_if_paired (bytes [0x00; 0x02]) default_prefix
           (connected (incoming (ack 2) ++ incoming (completion 2)))).
  vm_compute. reflexivity.
Defined.

(** The first reply decides: a command whose reply is none of the two Acks
    is over after one exchange. *)
Lemma cmd_cam_one_exchange (subcmd prefix body : string)
    (rest : list (option ascii)) (t : list string) (h : list event) :
  (String.length body < 16)%nat ->
  terminator_free body = true ->
  body <> bytes [0x90; 0x41] ->
  body <> bytes [0x90; 0x42] ->
  _cmd_cam subcmd prefix (line (incoming (body +:+ bytes [0xFF]) ++ rest) t h)
  = Returns
      (if (body =? bytes [0x90; 0x60; 0x02])%string
          || (body =? bytes [0x90; 0x61; 0x41])%string
          || (body =? bytes [0x90; 0x62; 0x41])%string
       then PyBool false else PyNone)
      (after_exchange (String (xchr 0x81) ((prefix +:+ subcmd) +:+ bytes [0xFF]))
         (body +:+ bytes [0xFF]) rest t h).
Proof.
  intros Hl Hf Hn1 Hn2.
  assert (Hsend := send_packet_reply (prefix +:+ subcmd) 1 (line _ t h) (mk_pyserial _ 0 t)
                     body rest eq_refl eq_refl eq_refl eq_refl Hl Hf).
  assert (Hcmp : forall known : string,
            reply_is (Some (body +:+ bytes [255])) (known +:+ bytes [255])
            = (body =? known)%string).
  { intros known. cbn [reply_is].
    destruct (String.eqb_spec body known) as [-> | Hne].
    - apply String.eqb_refl.
    - apply String.eqb_neq. intros Heq. apply Hne.
      clear -Heq. revert known Heq.
      induction body as [|c body IH]; intros [|k known] Heq.
      + reflexivity.
      + rewrite str_app_cons in Heq. cbn in Heq. injection Heq as _ Heq.
        destruct known; discriminate.
      + rewrite str_app_cons in Heq. cbn in Heq. injection Heq as _ Heq.
        destruct body; discriminate.
      + rewrite !str_app_cons in Heq. injection Heq as -> Heq.
        f_equal. now apply IH. }
  unfold _cmd_cam. unfold_monad. rewrite_send Hsend. cbv beta iota.
  change (bytes [144; 65; 255]) with (bytes [144; 65] +:+ bytes [255]).
  change (bytes [144; 66; 255]) with (bytes [144; 66] +:+ bytes [255]).
  change (bytes [144; 96; 2; 255]) with (bytes [144; 96; 2] +:+ bytes [255]).
  change (bytes [144; 97; 65; 255]) with (bytes [144; 97; 65] +:+ bytes [255]).
  change (bytes [144; 98; 65; 255]) with (bytes [144; 98; 65] +:+ bytes [255]).
  rewrite !Hcmp.
  apply String.eqb_neq in Hn1, Hn2. rewrite Hn1, Hn2.
  destruct (body =? bytes [144; 96; 2])%string; [reflexivity |].
  destruct (body =? bytes [144; 97; 65])%string; [reflexivity |].
  destruct (body =? bytes [144; 98; 65])%string; reflexivity.
Qed.

(** X8: a command that the camera refuses, by a syntax error [90 60 02 FF] or
    by "not executable" on socket 1 or 2, [90 61 41 FF] and [90 62 41 FF],
    returns [False] after one exchange: the lock is free again and what
    follows on the line is not read. *)
Theorem cmd_cam_refused (subcmd prefix : string)
    (rest : list (option ascii)) (t : list string) (h : list event) :
  Forall
    (fun refusal : string =>
       _cmd_cam subcmd prefix (line (incoming refusal ++ rest) t h)
       = Returns (PyBool false)
           (after_exchange (String (xchr 0x81) ((prefix +:+ subcmd) +:+ bytes [0xFF]))
              refusal rest t h))
    [syntax_error; bytes [0x90; 0x61; 0x41; 0xFF]; bytes [0x90; 0x62; 0x41; 0xFF]].
Proof.
  repeat constructor.
  - apply (cmd_cam_one_exchange subcmd prefix (bytes [0x90; 0x60; 0x02]) rest t h);
      first [discriminate | reflexivity | vm_compute; lia].
  - apply (cmd_cam_one_exchange subcmd prefix (bytes [0x90; 0x61; 0x41]) rest t h);
      first [discriminate | reflexivity | vm_compute; lia].
  - apply (cmd_cam_one_exchange subcmd prefix (bytes [0x90; 0x62; 0x41]) rest t h);
      first [discriminate | reflexivity | vm_compute; lia].
Qed.

(** X9: a terminated reply that is neither an Ack nor one of the three
    refusals, a Completion that comes first for instance, makes [_cmd_cam]
    return [None] after one exchange, without reading further. *)
Theorem cmd_cam_unknown_reply (subcmd prefix body : string)
    (rest : list (option ascii)) (t : list string) (h : list event) :
  (String.length body < 16)%nat ->
  terminator_free body = true ->
  ~ In body [bytes [0x90; 0x41]; bytes [0x90; 0x42]; bytes [0x90; 0x60; 0x02];
             bytes [0x90; 0x61; 0x41]; bytes [0x90; 0x62; 0x41]] ->
  _cmd_cam subcmd prefix (line (incoming (body +:+ bytes [0xFF]) ++ rest) t h)
  = Returns PyNone
      (after_exchange (String (xchr 0x81) ((prefix +:+ subcmd) +:+ bytes [0xFF]))
         (body +:+ bytes [0xFF]) rest t h).
Proof.
  intros Hl Hf Hnot.
  rewrite cmd_cam_one_exchange; try assumption.
  - replace (body =? bytes [144; 96; 2])%string with false
      by (symmetry; apply String.eqb_neq; intros ->; apply Hnot; simpl; auto).
    replace (body =? bytes [144; 97; 65])%string with false
      by (symmetry; apply String.eqb_neq; intros ->; apply Hnot; simpl; auto).
    replace (body =? bytes [144; 98; 65])%string with false
      by (symmetry; apply String.eqb_neq; intros ->; apply Hnot; simpl; auto 6).
    reflexivity.
  - intros ->. apply Hnot. simpl. auto.
  - intros ->. apply Hnot. simpl. auto.
Qed.

Lemma cmd_cam_unknown_reply_witness :
  _cmd_cam (bytes [0x00; 0x02]) default_prefix
    (line (incoming (bytes [0x90; 0x51] +:+ bytes [0xFF]) ++ incoming (ack 1)) [] [])
  = Returns PyNone
      (after_exchange
         (String (xchr 0x81) ((default_prefix +:+ bytes [0x00; 0x02]) +:+ bytes [0xFF]))
         (bytes [0x90; 0x51] +:+ bytes [0xFF]) (incoming (ack 1)) [] []).
Proof.
  apply (cmd_cam_unknown_reply (bytes [0x00; 0x02]) default_prefix (bytes [0x90; 0x51])
           (incoming (ack 1)) [] []).
  - vm_compute. lia.
  - reflexivity.
  - simpl. intros [H | [H | [H | [H | [H | []]]]]]; discriminate H.
Defined.

(** * Properties of the catalogue of commands *)

Lemma chr_byte (i : Z) : 0 <= i < 256 -> chr i = inr (String (xchr i) "").
Proof.
  intros Hi. unfold chr.
  replace ((0 <=? i) && (i <? 256)) with true; [reflexivity |].
  symmetry. apply andb_true_iff. split; [apply Z.leb_le | apply Z.ltb_lt]; lia.
Qed.


Lemma land_7 (i : Z) : Z.land i 7 = i mod 8.
Proof. change 7 with (Z.ones 3). now rewrite Z.land_ones by lia. Qed.

Lemma cmd_cam_alt_returns_none (subcmd : string) (s : Serial) :
  returns_none (_cmd_cam_alt subcmd s).
Proof.
  unfold _cmd_cam_alt. unfold_monad.
  destruct (_cmd_cam subcmd (bytes [1; 6]) s); cbn; auto.
Qed.

Lemma cmd_ptd_returns_none (self : Camera) (lr ud : Z) (s : Serial) :
  returns_none (_cmd_ptd self lr ud s).
Proof.
  unfold _cmd_ptd. unfold bind, mbind at 1, M_bind, lift, raise, ret.
  destruct (_ ≫= _) as [e | subcmd]; cbn; [exact I |].
  apply cmd_cam_alt_returns_none.
Qed.

(** X10: the commands sent through [_cmd_cam_alt] never report a success:
    [home], [reset], [menu_off] and the nine direction commands return [None]
    whenever they return, also when the camera acknowledges and completes the
    command, a case in which [_cmd_cam] itself returns [True]. *)
Theorem alt_commands_return_none (self : Camera) (subcmd : string) (s : Serial)
    (rest : list (option ascii)) (t : list string) (h : list event) :
  Forall returns_none
    [_cmd_cam_alt subcmd s; home s; reset s; menu_off s;
     up self s; down self s; left self s; right self s; upleft self s;
     upright self s; downleft self s; downright self s; stop self s] /\
  exists s' : Serial,
    _cmd_cam subcmd (bytes [0x01; 0x06])
      (line (incoming (ack 1) ++ incoming (completion 1) ++ rest) t h)
    = Returns (PyBool true) s' /\
    _cmd_cam_alt subcmd
      (line (incoming (ack 1) ++ incoming (completion 1) ++ rest) t h)
    = Returns PyNone s'.
Proof.
  split.
  - repeat constructor;
      first [apply cmd_cam_alt_returns_none | apply cmd_ptd_returns_none].
  - destruct (cmd_cam_two_replies subcmd (bytes [0x01; 0x06]) (line _ t h)
                (mk_pyserial _ 0 t) (bytes [0x90; 0x41]) (bytes [0x90; 0x51]) rest
                eq_refl eq_refl eq_refl eq_refl)
      as (s1 & s2 & H1 & H2 & _);
      [vm_compute; lia | reflexivity | vm_compute; lia | reflexivity |].
    assert (Hcmd : _cmd_cam subcmd (bytes [0x01; 0x06])
                     (line (incoming (ack 1) ++ incoming (completion 1) ++ rest) t h)
                   = Returns (PyBool true) s2).
    { unfold _cmd_cam. unfold_monad. rewrite_send H1. eval_reply_is.
      rewrite H2. eval_reply_is. reflexivity. }
    exists s2. split; [exact Hcmd |].
    unfold _cmd_cam_alt. unfold_monad. now rewrite Hcmd.
Qed.

(** The subcommand of a speed command: the speed 3 gives the byte of the
    standard speed, any other speed is taken modulo 8 and added to the base
    of the variable speeds; [chr] gets a byte in both cases. *)
Lemma speed_subcommand (op standard variable speed : Z) (s : Serial) :
  0 <= variable <= 248 ->
  (subcmd ← lift (if speed =? 3 then inr (bytes [op; standard])
                  else
                    let sbyte := variable + Z.land speed 7 in
                    c ← chr sbyte; inr (bytes [op] +:+ c));
   _cmd_cam subcmd default_prefix) s
  = _cmd_cam
      (bytes [op; if speed =? 3 then standard else variable + speed mod 8])
      default_prefix s.
Proof.
  intros Hv. pose proof (Z.mod_pos_bound speed 8 eq_refl) as Hb.
  unfold_monad. rewrite land_7.
  destruct (speed =? 3); [reflexivity |].
  cbv zeta. rewrite chr_byte by lia. reflexivity.
Qed.

(** X11: the four speed commands accept every integer: the speed 3 sends the
    command of the standard speed, any other speed is taken modulo 8 into the
    command of a variable speed.  So no speed makes the command raise, in
    whatever state it is called: [chr] always gets a byte; and whenever the
    command returns on a connection, the one frame it has written is
    [81 01 04 op byte FF], of 6 bytes. *)
Theorem speed_commands_frame (speed : Z) (command : Z -> M value)
    (op standard variable : Z) (s s' : Serial) (d : pyserial) (v : value) :
  In (command, op, standard, variable)
    [(zoom_tele, 0x07, 0x02, 0x20); (zoom_wide, 0x07, 0x03, 0x30);
     (focus_far, 0x08, 0x03, 0x30); (focus_near, 0x08, 0x02, 0x20)] ->
  command speed s = Returns v s' ->
  port s = Some d ->
  tx <$> port s'
  = Some (tx d ++ [bytes [0x81; 0x01; 0x04; op;
                          if speed =? 3 then standard else variable + speed mod 8;
                          0xFF]]) /\
  (forall (s0 s1 : Serial) (e : exn), command speed s0 <> Raises e s1).
Proof.
  intros Hin Hrun Hp.
  assert (Hcmd : forall s0 : Serial,
            command speed s0
            = _cmd_cam
                (bytes [op; if speed =? 3 then standard else variable + speed mod 8])
                default_prefix s0).
  { intros s0. cbn [In] in Hin.
    destruct Hin as [Heq | [Heq | [Heq | [Heq | []]]]];
      injection Heq as <- <- <- <-.
    - exact (speed_subcommand 0x07 0x02 0x20 speed s0 ltac:(lia)).
    - exact (speed_subcommand 0x07 0x03 0x30 speed s0 ltac:(lia)).
    - exact (speed_subcommand 0x08 0x03 0x30 speed s0 ltac:(lia)).
    - exact (speed_subcommand 0x08 0x02 0x20 speed s0 ltac:(lia)). }
  split.
  - rewrite Hcmd in Hrun.
    exact (proj1 (cmd_cam_return_facts _ _ s s' d v Hrun Hp)).
  - intros s0 s1 e. rewrite Hcmd. apply cmd_cam_never_raises.
Qed.

Lemma speed_commands_frame_witness :
  tx <$> port (mk_Serial false
                 (Some (mk_pyserial [] 0 [bytes [0x81; 0x01; 0x04; 0x07; 0x27; 0xFF]]))
                 [Acquire; Sent (bytes [0x81; 0x01; 0x04; 0x07; 0x27; 0xFF]);
                  Recv (Some (ack 1)); Release; Recv (Some (completion 1))])
  = Some (tx (mk_pyserial (incoming (ack 1) ++ incoming (completion 1)) 0 [])
          ++ [bytes [0x81; 0x01; 0x04; 0x07;
                     if -1 =? 3 then 0x02 else 0x20 + (-1) mod 8;
                     0xFF]]) /\
  (forall (s0 s1 : Serial) (e : exn), zoom_tele (-1) s0 <> Raises e s1).
Proof.
  apply (speed_commands_frame (-1) zoom_tele 0x07 0x02 0x20
           (connected (incoming (ack 1) ++ incoming (completion 1)))
           (mk_Serial false
              (Some (mk_pyserial [] 0 [bytes [0x81; 0x01; 0x04; 0x07; 0x27; 0xFF]]))
              [Acquire; Sent (bytes [0x81; 0x01; 0x04; 0x07; 0x27; 0xFF]);
               Recv (Some (ack 1)); Release; Recv (Some (completion 1))])
           (mk_pyserial (incoming (ack 1) ++ incoming (completion 1)) 0 [])
           (PyBool true)).
  - left. reflexivity.
  - vm_compute. reflexivity.
  - reflexivity.
Defined.

(** [_memory] with a function in 0..2: the command it sends. *)
Lemma memory_subcommand (func num : Z) (s : Serial) :
  0 <= func <= 2 ->
  _memory func num s
  = _cmd_cam (bytes [0x3F; func; Z.min num 5 mod 8]) default_prefix s.
Proof.
  intros Hfunc. unfold _memory.
  replace (if 5 <? num then 5 else num) with (Z.min num 5)
    by (destruct (5 <? num) eqn:E; [apply Z.ltb_lt in E | apply Z.ltb_ge in E]; lia).
  replace ((func <? 0) || (2 <? func)) with false
    by (symmetry; apply orb_false_iff; split; apply Z.ltb_ge; lia).
  rewrite Z.land_comm, land_7.
  pose proof (Z.mod_pos_bound (Z.min num 5) 8 eq_refl).
  unfold_monad. unfold mbind, result_bind.
  rewrite (chr_byte func), (chr_byte (Z.min num 5 mod 8)) by lia.
  reflexivity.
Qed.

(** [_memory] with any other function. *)
Lemma memory_refused (func num : Z) (s : Serial) :
  ~ 0 <= func <= 2 -> _memory func num s = Returns (PyBool false) s.
Proof.
  intros Hfunc. unfold _memory.
  replace ((func <? 0) || (2 <? func)) with true; [reflexivity |].
  symmetry. apply orb_true_iff.
  destruct (Z_lt_le_dec func 0); [left | right]; apply Z.ltb_lt; lia.
Qed.

(** X12: [_memory] refuses a function outside 0..2 with [False] and without
    touching the line.  With a function in 0..2, whenever it returns on a
    connection, the one frame it has written is [81 01 04 3F func slot FF],
    where the slot is the number capped at 5, and then taken modulo 8: a
    number from 0 on gives a slot in 0..5, a negative number is not brought
    back into that range.  And [_memory] raises nothing of its own, in
    whatever state it is called. *)
Theorem memory_frame (func num : Z) (s s' : Serial) (d : pyserial) (v : value) :
  _memory func num s = Returns v s' ->
  port s = Some d ->
  (if (0 <=? func) && (func <=? 2)
   then tx <$> port s'
        = Some (tx d ++ [bytes [0x81; 0x01; 0x04; 0x3F; func; Z.min num 5 mod 8; 0xFF]])
   else v = PyBool false /\ s' = s) /\
  (0 <= num -> Z.min num 5 mod 8 = Z.min num 5) /\
  (forall (s0 s1 : Serial) (e : exn), _memory func num s0 <> Raises e s1).
Proof.
  intros Hrun Hp.
  assert (Hslot : 0 <= num -> Z.min num 5 mod 8 = Z.min num 5)
    by (intros H; apply Z.mod_small; lia).
  destruct ((0 <=? func) && (func <=? 2)) eqn:Hfunc.
  - apply andb_true_iff in Hfunc as [H0 H2]. apply Z.leb_le in H0, H2.
    split; [| split; [exact Hslot |]].
    + rewrite memory_subcommand in Hrun by lia.
      exact (proj1 (cmd_cam_return_facts _ _ s s' d v Hrun Hp)).
    + intros s0 s1 e. rewrite memory_subcommand by lia. apply cmd_cam_never_raises.
  - assert (Hout : ~ 0 <= func <= 2).
    { intros [H0 H2]. apply Z.leb_le in H0, H2. rewrite H0, H2 in Hfunc. discriminate. }
    split; [| split; [exact Hslot |]].
    + rewrite memory_refused in Hrun by assumption. injection Hrun as <- <-. auto.
    + intros s0 s1 e. rewrite memory_refused by assumption. discriminate.
Qed.

Lemma memory_frame_witness :
  (if (0 <=? 1) && (1 <=? 2)
   then tx <$> port (mk_Serial false
                       (Some (mk_pyserial [] 0
                                [bytes [0x81; 0x01; 0x04; 0x3F; 0x01; 0x05; 0xFF]]))
                       [Acquire; Sent (bytes [0x81; 0x01; 0x04; 0x3F; 0x01; 0x05; 0xFF]);
                        Recv (Some (ack 1)); Release; Recv (Some (completion 1))])
        = Some (tx (mk_pyserial (incoming (ack 1) ++ incoming (completion 1)) 0 [])
                ++ [bytes [0x81; 0x01; 0x04; 0x3F; 1; Z.min 9 5 mod 8; 0xFF]])
   else PyBool true = PyBool false /\
        mk_Serial false
          (Some (mk_pyserial [] 0 [bytes [0x81; 0x01; 0x04; 0x3F; 0x01; 0x05; 0xFF]]))
          [Acquire; Sent (bytes [0x81; 0x01; 0x04; 0x3F; 0x01; 0x05; 0xFF]);
           Recv (Some (ack 1)); Release; Recv (Some (completion 1))]
        = connected (incoming (ack 1) ++ incoming (completion 1))) /\
  (0 <= 9 -> Z.min 9 5 mod 8 = Z.min 9 5) /\
  (forall (s0 s1 : Serial) (e : exn), _memory 1 9 s0 <> Raises e s1).
Proof.
  apply (memory_frame 1 9
           (connected (incoming (ack 1) ++ incoming (completion 1)))
           (mk_Serial false
              (Some (mk_pyserial [] 0 [bytes [0x81; 0x01; 0x04; 0x3F; 0x01; 0x05; 0xFF]]))
              [Acquire; Sent (bytes [0x81; 0x01; 0x04; 0x3F; 0x01; 0x05; 0xFF]);
               Recv (Some (ack 1)); Release; Recv (Some (completion 1))])
           (mk_pyserial (incoming (ack 1) ++ incoming (completion 1)) 0 [])
           (PyBool true)).
  - vm_compute. reflexivity.
  - reflexivity.
Defined.

(** X13: a setter that chooses its command by name answers a name it does
    not know with [False], without touching the line; and
    [focus_auto_sensitivity] answers a state it does not know with [None]. *)
Theorem unknown_mode_refused (state mode_wb mode_ae mode_fx resfreq sensitivity : string)
    (s : Serial) :
  ~ In state ["normal"; "interval"; "zoom_trigger"] ->
  ~ In mode_wb ["auto"; "indoor"; "outdoor"; "trigger"; "manual"] ->
  ~ In mode_ae ["auto"; "shutter"; "manual"; "iris"; "bright"] ->
  ~ In mode_fx ["Normal"; "NegArt"; "B&W"] ->
  ~ In resfreq ["1080PsF29.97"; "1080p29.97"; "720p59.94"; "720p29.97"; "NTSC";
                "1080PsF25"; "720p50"; "720p25"; "1080i50"; "PAL"] ->
  ~ In sensitivity ["normal"; "low"] ->
  focus_auto_mode state s = Returns (PyBool false) s /\
  set_WB mode_wb s = Returns (PyBool false) s /\
  set_AE mode_ae s = Returns (PyBool false) s /\
  set_FX mode_fx s = Returns (PyBool false) s /\
  set_video resfreq s = Returns (PyBool false) s /\
  focus_auto_sensitivity sensitivity s = Returns PyNone s.
Proof.
  intros H1 H2 H3 H4 H5 H6.
  assert (Hne : forall (m k : string) (l : list string),
            ~ In m l -> In k l -> (m =? k)%string = false).
  { intros m k l Hn Hk. apply String.eqb_neq. intros ->. contradiction. }
  repeat split.
  - unfold focus_auto_mode.
    rewrite !(fun k Hk => Hne state k _ H1 Hk) by (simpl; auto 10). reflexivity.
  - unfold set_WB.
    rewrite !(fun k Hk => Hne mode_wb k _ H2 Hk) by (simpl; auto 10). reflexivity.
  - unfold set_AE.
    rewrite !(fun k Hk => Hne mode_ae k _ H3 Hk) by (simpl; auto 10). reflexivity.
  - unfold set_FX.
    rewrite !(fun k Hk => Hne mode_fx k _ H4 Hk) by (simpl; auto 10). reflexivity.
  - unfold set_video.
    rewrite !(fun k Hk => Hne resfreq k _ H5 Hk) by (simpl; auto 15). reflexivity.
  - unfold focus_auto_sensitivity.
    rewrite !(fun k Hk => Hne sensitivity k _ H6 Hk) by (simpl; auto 10). reflexivity.
Qed.

Lemma unknown_mode_refused_witness :
  focus_auto_mode "auto" silent_line = Returns (PyBool false) silent_line /\
  set_WB "Auto" silent_line = Returns (PyBool false) silent_line /\
  set_AE "gain" silent_line = Returns (PyBool false) silent_line /\
  set_FX "normal" silent_line = Returns (PyBool false) silent_line /\
  set_video "720p60" silent_line = Returns (PyBool false) silent_line /\
  focus_auto_sensitivity "high" silent_line = Returns PyNone silent_line.
Proof.
  apply (unknown_mode_refused "auto" "Auto" "gain" "normal" "720p60" "high" silent_line);
    simpl; intuition discriminate.
Defined.



(** [_cmd_ptd] with speeds and directions that are bytes: the command it
    sends. *)
Lemma cmd_ptd_subcommand (self : Camera) (lr ud : Z) (s : Serial) :
  0 <= _pan_speed self < 256 ->
  0 <= _tilt_speed self < 256 ->
  0 <= lr < 256 -> 0 <= ud < 256 ->
  _cmd_ptd self lr ud s
  = _cmd_cam_alt (bytes [0x01; _pan_speed self; _tilt_speed self; lr; ud]) s.
Proof.
  intros Hps Hts Hlr Hud. unfold _cmd_ptd. unfold_monad. unfold mbind, result_bind.
  rewrite (chr_byte (_pan_speed self)), (chr_byte (_tilt_speed self)),
    (chr_byte lr), (chr_byte ud) by assumption.
  reflexivity.
Qed.

(** X15: with speeds that are bytes, whenever a direction command returns on
    a connection, it returns [None] and the one frame it has written is
    [81 01 06 01 pan_speed tilt_speed lr ud FF], of 9 bytes, where [lr] and
    [ud] are 01, 02 or 03: left, right or none, and up, down or none; the
    speeds are those last set on the camera object, 5 and 5 at first. *)
Theorem direction_frame (self : Camera) (command : Camera -> M value) (lr ud : Z)
    (s s' : Serial) (d : pyserial) (v : value) :
  In (command, lr, ud)
    [(up, 3, 1); (down, 3, 2); (left, 1, 3); (right, 2, 3); (upleft, 1, 1);
     (upright, 2, 1); (downleft, 1, 2); (downright, 2, 2); (stop, 3, 3)] ->
  0 <= _pan_speed self < 256 ->
  0 <= _tilt_speed self < 256 ->
  command self s = Returns v s' ->
  port s = Some d ->
  v = PyNone /\
  tx <$> port s'
  = Some (tx d ++ [bytes [0x81; 0x01; 0x06; 0x01;
                          _pan_speed self; _tilt_speed self; lr; ud; 0xFF]]).
Proof.
  intros Hin Hps Hts Hrun Hp.
  assert (Hcmd : command self s = _cmd_ptd self lr ud s /\ 0 <= lr < 256 /\ 0 <= ud < 256).
  { cbn [In] in Hin.
    repeat (destruct Hin as [Heq | Hin];
            [injection Heq as <- <- <-; split; [reflexivity | lia] |]).
    destruct Hin. }
  destruct Hcmd as (Hcmd & Hlr & Hud).
  rewrite Hcmd, cmd_ptd_subcommand in Hrun by assumption.
  unfold _cmd_cam_alt in Hrun. unfold mbind, M_bind, mret, M_ret, bind, ret in Hrun.
  destruct (_cmd_cam (bytes [1; _pan_speed self; _tilt_speed self; lr; ud]) (bytes [1; 6]) s)
    as [v1 s1 | | |] eqn:Hcam; try discriminate Hrun.
  injection Hrun as <- <-. split; [reflexivity |].
  exact (proj1 (cmd_cam_return_facts _ _ s s1 d v1 Hcam Hp)).
Qed.

Lemma direction_frame_witness :
  PyNone = PyNone /\
  tx <$> port (mk_Serial false
                 (Some (mk_pyserial [] 0
                          [bytes [0x81; 0x01; 0x06; 0x01; 0x05; 0x05; 0x03; 0x01; 0xFF]]))
                 [Acquire;
                  Sent (bytes [0x81; 0x01; 0x06; 0x01; 0x05; 0x05; 0x03; 0x01; 0xFF]);
                  Recv (Some (ack 1)); Release; Recv (Some (completion 1))])
  = Some (tx (mk_pyserial (incoming (ack 1) ++ incoming (completion 1)) 0 [])
          ++ [bytes [0x81; 0x01; 0x06; 0x01;
                     _pan_speed Camera_init; _tilt_speed Camera_init; 3; 1; 0xFF]]).
Proof.
  apply (direction_frame Camera_init up 3 1
           (connected (incoming (ack 1) ++ incoming (completion 1)))
           (mk_Serial false
              (Some (mk_pyserial [] 0
                       [bytes [0x81; 0x01; 0x06; 0x01; 0x05; 0x05; 0x03; 0x01; 0xFF]]))
              [Acquire;
               Sent (bytes [0x81; 0x01; 0x06; 0x01; 0x05; 0x05; 0x03; 0x01; 0xFF]);
               Recv (Some (ack 1)); Release; Recv (Some (completion 1))])
           (mk_pyserial (incoming (ack 1) ++ incoming (completion 1)) 0 [])
           PyNone).
  - left. reflexivity.
  - simpl. lia.
  - simpl. lia.
  - vm_compute. reflexivity.
  - reflexivity.
Defined.

(** * Further properties of the query handshake *)

Lemma str_app_inv_tail (a b c : string) : a +:+ c = b +:+ c -> a = b.
Proof.
  revert b. induction a as [|x0 a IH]; intros [|y0 b] Heq.
  - reflexivity.
  - exfalso. apply (f_equal String.length) in Heq.
    rewrite str_app_cons, str_app_nil_l in Heq. cbn [String.length] in Heq.
    rewrite str_length_app in Heq. lia.
  - exfalso. apply (f_equal String.length) in Heq.
    rewrite str_app_cons, str_app_nil_l in Heq. cbn [String.length] in Heq.
    rewrite str_length_app in Heq. lia.
  - rewrite !str_app_cons in Heq. injection Heq as -> Heq. f_equal. now apply IH.
Qed.

Lemma eqb_app_terminator (body known : string) :
  (body +:+ bytes [255] =? known +:+ bytes [255])%string = (body =? known)%string.
Proof.
  destruct (String.eqb_spec body known) as [-> | Hne].
  - apply String.eqb_refl.
  - apply String.eqb_neq. intros Heq. apply Hne. now apply str_app_inv_tail in Heq.
Qed.

(** A terminated reply other than a full buffer ends [_come_back] after one
    exchange. *)
Lemma come_back_one_exchange (fuel : nat) (query body : string)
    (rest : list (option ascii)) (t : list string) (h : list event) :
  (String.length body < 16)%nat ->
  terminator_free body = true ->
  body <> bytes [0x90; 0x60; 0x03] ->
  _come_back fuel query (line (incoming (body +:+ bytes [0xFF]) ++ rest) t h)
  = Returns
      (if startswith (body +:+ bytes [0xFF]) (bytes [0x90; 0x50])
       then PyStr (body +:+ bytes [0xFF])
       else if (body =? bytes [0x90; 0x60; 0x02])%string then PyBool false
       else PyNone)
      (after_exchange (String (xchr 0x81) (query +:+ bytes [0xFF]))
         (body +:+ bytes [0xFF]) rest t h).
Proof.
  intros Hl Hf Hbf.
  assert (Hsend := send_packet_reply query 1 (line _ t h) (mk_pyserial _ 0 t)
                     body rest eq_refl eq_refl eq_refl eq_refl Hl Hf).
  assert (Hstep : forall k : M value,
    (reply ← _send_packet query 1;
     if reply_is reply (bytes [0x90; 0x60; 0x03; 0xFF]) then k
     else match reply with
          | None => raise AttributeError
          | Some r =>
              if startswith r (bytes [0x90; 0x50]) then mret (PyStr r)
              else if (r =? bytes [0x90; 0x60; 0x02; 0xFF])%string then mret (PyBool false)
              else mret PyNone
          end)
      (line (incoming (body +:+ bytes [0xFF]) ++ rest) t h)
    = Returns
        (if startswith (body +:+ bytes [0xFF]) (bytes [0x90; 0x50])
         then PyStr (body +:+ bytes [0xFF])
         else if (body =? bytes [0x90; 0x60; 0x02])%string then PyBool false
         else PyNone)
        (after_exchange (String (xchr 0x81) (query +:+ bytes [0xFF]))
           (body +:+ bytes [0xFF]) rest t h)).
  { intros k. unfold_monad. rewrite_send Hsend. cbv beta iota.
    cbn [reply_is].
    change (bytes [144; 96; 3; 255]) with (bytes [144; 96; 3] +:+ bytes [255]).
    change (bytes [144; 96; 2; 255]) with (bytes [144; 96; 2] +:+ bytes [255]).
    rewrite !eqb_app_terminator.
    apply String.eqb_neq in Hbf. rewrite Hbf.
    destruct (startswith (body +:+ bytes [255]) (bytes [144; 80])); [reflexivity |].
    destruct (body =? bytes [144; 96; 2])%string; reflexivity. }
  destruct fuel; cbn [_come_back]; apply Hstep.
Qed.

(** X16: when the camera answers a query with the syntax error
    [90 60 02 FF], [_query] returns [None] (the [False] of [_come_back] is not
    handed on) after one exchange, without asking again. *)
Theorem query_syntax_error_gives_none
    (queries : gmap string string) (answers : gmap string (gmap Z value))
    (high_res_params very_high_res_params : gset string)
    (hex_to_int : value -> exn + value)
    (visca_to_degree : value -> string -> exn + value)
    (function subcmd : string)
    (rest : list (option ascii)) (t : list string) (h : list event) (fuel : nat) :
  function <> "" ->
  queries !! looked_up function = Some subcmd ->
  _query queries answers high_res_params very_high_res_params hex_to_int
    visca_to_degree (S fuel) (Some function)
    (line (incoming syntax_error ++ rest) t h)
  = Returns PyNone
      (after_exchange (String (xchr 0x81) ((bytes [0x09] +:+ subcmd) +:+ bytes [0xFF]))
         syntax_error rest t h).
Proof.
  intros Hne Hq. cbn [_query].
  apply String.eqb_neq in Hne. rewrite Hne.
  unfold looked_up in Hq. rewrite Hq. unfold_monad.
  change syntax_error with (bytes [0x90; 0x60; 0x02] +:+ bytes [0xFF]).
  rewrite come_back_one_exchange; [reflexivity | vm_compute; lia | reflexivity | discriminate].
Qed.

Lemma query_syntax_error_gives_none_witness :
  sample_query 1 (Some "power") (line (incoming syntax_error ++ []) [] [])
  = Returns PyNone
      (after_exchange
         (String (xchr 0x81) ((bytes [0x09] +:+ bytes [0x04; 0x00]) +:+ bytes [0xFF]))
         syntax_error [] [] []).
Proof.
  apply (query_syntax_error_gives_none sample_queries ∅ ∅ ∅ sample_hex_to_int
           sample_visca_to_degree "power" (bytes [0x04; 0x00]) [] [] [] 0).
  - discriminate.
  - reflexivity.
Defined.

(** X17: a terminated reply that is no completion, no full buffer and no
    syntax error, an Ack for instance, counts as no answer: [_query] asks
    again, with the same query, on the line as the exchange left it. *)
Theorem query_asks_again_on_unknown_reply
    (queries : gmap string string) (answers : gmap string (gmap Z value))
    (high_res_params very_high_res_params : gset string)
    (hex_to_int : value -> exn + value)
    (visca_to_degree : value -> string -> exn + value)
    (function subcmd body : string)
    (rest : list (option ascii)) (t : list string) (h : list event) (fuel : nat) :
  function <> "" ->
  queries !! looked_up function = Some subcmd ->
  (String.length body < 16)%nat ->
  terminator_free body = true ->
  startswith (body +:+ bytes [0xFF]) (bytes [0x90; 0x50]) = false ->
  body <> bytes [0x90; 0x60; 0x03] ->
  body <> bytes [0x90; 0x60; 0x02] ->
  _query queries answers high_res_params very_high_res_params hex_to_int
    visca_to_degree (S fuel) (Some function)
    (line (incoming (body +:+ bytes [0xFF]) ++ rest) t h)
  = _query queries answers high_res_params very_high_res_params hex_to_int
      visca_to_degree fuel (Some (looked_up function))
      (line rest (t ++ [String (xchr 0x81) ((bytes [0x09] +:+ subcmd) +:+ bytes [0xFF])])
         (h ++ [Acquire;
                Sent (String (xchr 0x81) ((bytes [0x09] +:+ subcmd) +:+ bytes [0xFF]));
                Recv (Some (body +:+ bytes [0xFF])); Release])).
Proof.
  intros Hne Hq Hl Hf Hsw Hbf Hse. cbn [_query].
  apply String.eqb_neq in Hne. rewrite Hne.
  unfold looked_up in *. rewrite Hq. unfold_monad.
  rewrite come_back_one_exchange by assumption.
  rewrite Hsw. apply String.eqb_neq in Hse. rewrite Hse. reflexivity.
Qed.

Lemma query_asks_again_on_unknown_reply_witness :
  sample_query 2 (Some "power")
    (line (incoming (bytes [0x90; 0x41] +:+ bytes [0xFF])
           ++ incoming (bytes [0x90; 0x50; 0x02; 0xFF])) [] [])
  = sample_query 1 (Some (looked_up "power"))
      (line (incoming (bytes [0x90; 0x50; 0x02; 0xFF]))
         ([] ++ [String (xchr 0x81) ((bytes [0x09] +:+ bytes [0x04; 0x00]) +:+ bytes [0xFF])])
         ([] ++ [Acquire;
                 Sent (String (xchr 0x81) ((bytes [0x09] +:+ bytes [0x04; 0x00]) +:+ bytes [0xFF]));
                 Recv (Some (bytes [0x90; 0x41] +:+ bytes [0xFF])); Release])).
Proof.
  apply (query_asks_again_on_unknown_reply sample_queries ∅ ∅ ∅ sample_hex_to_int
           sample_visca_to_degree "power" (bytes [0x04; 0x00]) (bytes [0x90; 0x41])
           (incoming (bytes [0x90; 0x50; 0x02; 0xFF])) [] [] 1);
    first [discriminate | reflexivity | vm_compute; lia].
Defined.

(** A completion frame is unpacked and translated under the name that was
    looked up, after one exchange. *)
Lemma query_on_completion
    (queries : gmap string string) (answers : gmap string (gmap Z value))
    (high_res_params very_high_res_params : gset string)
    (hex_to_int : value -> exn + value)
    (visca_to_degree : value -> string -> exn + value)
    (function subcmd payload : string)
    (rest : list (option ascii)) (t : list string) (h : list event) (fuel : nat) :
  function <> "" ->
  queries !! looked_up function = Some subcmd ->
  (String.length payload <= 13)%nat ->
  terminator_free payload = true ->
  _query queries answers high_res_params very_high_res_params hex_to_int
    visca_to_degree (S fuel) (Some function)
    (line (incoming (String (xchr 0x90) (String (xchr 0x50) (payload +:+ bytes [0xFF])))
           ++ rest) t h)
  = (reply ← lift (unpack (String (xchr 0x90) (String (xchr 0x50) (payload +:+ bytes [0xFF]))));
     lift (translate answers high_res_params very_high_res_params hex_to_int
             visca_to_degree (looked_up function) reply))
      (after_exchange (String (xchr 0x81) ((bytes [0x09] +:+ subcmd) +:+ bytes [0xFF]))
         (String (xchr 0x90) (String (xchr 0x50) (payload +:+ bytes [0xFF]))) rest t h).
Proof.
  intros Hne Hq Hlen Hfree. cbn [_query].
  apply String.eqb_neq in Hne. rewrite Hne.
  unfold looked_up in *. rewrite Hq. unfold_monad.
  rewrite come_back_completion by assumption.
  reflexivity.
Qed.

(** X18: for a property that has a table of answers, and is not read in high
    resolution, a completion with a payload of one byte is translated through
    the table: a code that the table knows gives its label, any other code
    is returned as the integer it is. *)
Theorem query_translates_known_codes
    (queries : gmap string string) (answers : gmap string (gmap Z value))
    (high_res_params very_high_res_params : gset string)
    (hex_to_int : value -> exn + value)
    (visca_to_degree : value -> string -> exn + value)
    (function subcmd : string) (table : gmap Z value) (code : ascii)
    (rest : list (option ascii)) (t : list string) (h : list event) (fuel : nat) :
  function <> "" ->
  queries !! looked_up function = Some subcmd ->
  looked_up function ∉ high_res_params ->
  looked_up function ∉ very_high_res_params ->
  answers !! looked_up function = Some table ->
  ord code <> 0xFF ->
  exists s' : Serial,
    _query queries answers high_res_params very_high_res_params hex_to_int
      visca_to_degree (S fuel) (Some function)
      (line (incoming (String (xchr 0x90) (String (xchr 0x50) (String code (bytes [0xFF]))))
             ++ rest) t h)
    = Returns (default (PyInt (ord code)) (table !! ord code)) s' /\
    rx <$> port s' = Some rest.
Proof.
  intros Hne Hq Hh Hv Ha Hcode.
  change (String code (bytes [255])) with (String code "" +:+ bytes [255]).
  rewrite (query_on_completion queries answers high_res_params very_high_res_params
             hex_to_int visca_to_degree function subcmd (String code "") rest t h fuel
             Hne Hq); [| simpl; lia |].
  - rewrite unpack_completion by discriminate.
    cbn [String.length Nat.leb]. unfold_monad. cbv beta iota.
    unfold_monad. cbv beta iota.
    unfold translate. rewrite !bool_decide_eq_false_2 by assumption.
    unfold mbind, result_bind. rewrite Ha. cbn [code_of].
    unfold option_bind.
    exists (after_exchange (String (xchr 0x81) ((bytes [0x09] +:+ subcmd) +:+ bytes [0xFF]))
              (String (xchr 0x90) (String (xchr 0x50) (String code "" +:+ bytes [0xFF])))
              rest t h).
    split; [| reflexivity].
    destruct (table !! ord code); reflexivity.
  - unfold terminator_free. cbn [list_ascii_of_string forallb].
    unfold terminator. apply Z.eqb_neq in Hcode. now rewrite Hcode.
Qed.

Lemma query_translates_known_codes_witness :
  exists s' : Serial,
    _query sample_queries {[ "power" := {[ 2 := PyBool true; 3 := PyBool false ]} ]}
      ∅ ∅ sample_hex_to_int sample_visca_to_degree 1 (Some "power")
      (line (incoming (String (xchr 0x90) (String (xchr 0x50) (String (xchr 3) (bytes [0xFF]))))
             ++ []) [] [])
    = Returns (default (PyInt (ord (xchr 3)))
                 (({[ 2 := PyBool true; 3 := PyBool false ]} : gmap Z value) !! ord (xchr 3))) s' /\
    rx <$> port s' = Some [].
Proof.
  apply (query_translates_known_codes sample_queries
           {[ "power" := {[ 2 := PyBool true; 3 := PyBool false ]} ]}
           ∅ ∅ sample_hex_to_int sample_visca_to_degree "power" (bytes [0x04; 0x00])
           {[ 2 := PyBool true; 3 := PyBool false ]} (xchr 3) [] [] [] 0);
    first [discriminate | reflexivity | apply not_elem_of_empty].
Defined.

(** X19: a completion without payload, [90 50 FF], makes [_query] raise
    [ValueError] after one exchange: the empty text is not a number. *)
Theorem query_empty_payload_raises
    (queries : gmap string string) (answers : gmap string (gmap Z value))
    (high_res_params very_high_res_params : gset string)
    (hex_to_int : value -> exn + value)
    (visca_to_degree : value -> string -> exn + value)
    (function subcmd : string)
    (rest : list (option ascii)) (t : list string) (h : list event) (fuel : nat) :
  function <> "" ->
  queries !! looked_up function = Some subcmd ->
  _query queries answers high_res_params very_high_res_params hex_to_int
    visca_to_degree (S fuel) (Some function)
    (line (incoming (bytes [0x90; 0x50; 0xFF]) ++ rest) t h)
  = Raises ValueError
      (after_exchange (String (xchr 0x81) ((bytes [0x09] +:+ subcmd) +:+ bytes [0xFF]))
         (bytes [0x90; 0x50; 0xFF]) rest t h).
Proof.
  intros Hne Hq.
  change (bytes [0x90; 0x50; 0xFF])
    with (String (xchr 0x90) (String (xchr 0x50) ("" +:+ bytes [0xFF]))).
  rewrite (query_on_completion queries answers high_res_params very_high_res_params
             hex_to_int visca_to_degree function subcmd "" rest t h fuel Hne Hq);
    [reflexivity | simpl; lia | reflexivity].
Qed.

Lemma query_empty_payload_raises_witness :
  sample_query 1 (Some "power") (line (incoming (bytes [0x90; 0x50; 0xFF]) ++ []) [] [])
  = Raises ValueError
      (after_exchange
         (String (xchr 0x81) ((bytes [0x09] +:+ bytes [0x04; 0x00]) +:+ bytes [0xFF]))
         (bytes [0x90; 0x50; 0xFF]) [] [] []).
Proof.
  apply (query_empty_payload_raises sample_queries ∅ ∅ ∅ sample_hex_to_int
           sample_visca_to_degree "power" (bytes [0x04; 0x00]) [] [] [] 0).
  - discriminate.
  - reflexivity.
Defined.

(** The translation of a property that has no table of answers and is not
    read in high resolution, before the tests on its name. *)
Lemma translate_no_table (answers : gmap string (gmap Z value))
    (high_res_params very_high_res_params : gset string)
    (hex_to_int : value -> exn + value)
    (visca_to_degree : value -> string -> exn + value)
    (function : string) (reply : value) :
  function ∉ high_res_params ->
  function ∉ very_high_res_params ->
  answers !! function = None ->
  translate answers high_res_params very_high_res_params hex_to_int visca_to_degree
    function reply
  = if (function =? "NR")%string || (function =? "gamma")%string
       || (function =? "chromasuppress")%string then inr reply
    else if (function =? "color_gain")%string || (function =? "color_hue")%string then
      group ← index reply 3;
      reply ← int16_of group;
      let reply := str_of_int (scale reply 0 14 60 200) in
      if (function =? "color_gain")%string then inr (PyStr (reply +:+ "%"))
      else inr (PyStr (reply +:+ degree_sign))
    else if (function =? "pan_tilt")%string then
      pan ← slice reply 0 4;
      tilt ← slice reply 4 8;
      pan ← hex_to_int pan;
      tilt ← hex_to_int tilt;
      pan ← visca_to_degree pan "pan";
      tilt ← visca_to_degree tilt "tilt";
      inr (PyList [pan; tilt])
    else inr reply.
Proof.
  intros Hh Hv Ha. unfold translate.
  rewrite !bool_decide_eq_false_2 by assumption.
  unfold mbind at 1, result_bind at 1. now rewrite Ha.
Qed.

(** X20: the reply to the pan and tilt inquiry is split in two: the first
    four groups of the payload go through [hex_to_int] and then through
    [visca_to_degree] for the pan, the next four for the tilt.  [_query]
    returns the pair under the names [pan], [tilt] and [pan_tilt] alike, and
    the getters [pan] and [tilt] return its first and second component. *)
Theorem pan_tilt_decoding
    (queries : gmap string string) (answers : gmap string (gmap Z value))
    (high_res_params very_high_res_params : gset string)
    (hex_to_int : value -> exn + value)
    (visca_to_degree : value -> string -> exn + value)
    (function subcmd payload : string) (a b pan_degrees tilt_degrees : value)
    (rest : list (option ascii)) (t : list string) (h : list event) (fuel : nat) :
  In function ["pan"; "tilt"; "pan_tilt"] ->
  queries !! "pan_tilt" = Some subcmd ->
  "pan_tilt" ∉ high_res_params ->
  "pan_tilt" ∉ very_high_res_params ->
  answers !! "pan_tilt" = None ->
  (2 <= String.length payload <= 13)%nat ->
  terminator_free payload = true ->
  hex_to_int (PyList (PyStr <$> take 4 (hex_groups payload))) = inr a ->
  hex_to_int (PyList (PyStr <$> take 4 (drop 4 (hex_groups payload)))) = inr b ->
  visca_to_degree a "pan" = inr pan_degrees ->
  visca_to_degree b "tilt" = inr tilt_degrees ->
  exists s' : Serial,
    _query queries answers high_res_params very_high_res_params hex_to_int
      visca_to_degree (S fuel) (Some function)
      (line (incoming (String (xchr 0x90) (String (xchr 0x50) (payload +:+ bytes [0xFF])))
             ++ rest) t h)
    = Returns (PyList [pan_degrees; tilt_degrees]) s' /\
    pan queries answers high_res_params very_high_res_params hex_to_int
      visca_to_degree (S fuel)
      (line (incoming (String (xchr 0x90) (String (xchr 0x50) (payload +:+ bytes [0xFF])))
             ++ rest) t h)
    = Returns pan_degrees s' /\
    tilt queries answers high_res_params very_high_res_params hex_to_int
      visca_to_degree (S fuel)
      (line (incoming (String (xchr 0x90) (String (xchr 0x50) (payload +:+ bytes [0xFF])))
             ++ rest) t h)
    = Returns tilt_degrees s'.
Proof.
  intros Hf Hq Hh Hv Ha Hlen Hfree Hpan Htilt Hpd Htd.
  assert (Hrun : forall f : string,
    In f ["pan"; "tilt"; "pan_tilt"] ->
    _query queries answers high_res_params very_high_res_params hex_to_int
      visca_to_degree (S fuel) (Some f)
      (line (incoming (String (xchr 0x90) (String (xchr 0x50) (payload +:+ bytes [0xFF])))
             ++ rest) t h)
    = Returns (PyList [pan_degrees; tilt_degrees])
        (after_exchange (String (xchr 0x81) ((bytes [0x09] +:+ subcmd) +:+ bytes [0xFF]))
           (String (xchr 0x90) (String (xchr 0x50) (payload +:+ bytes [0xFF]))) rest t h)).
  { intros f Hin.
    assert (Hlook : looked_up f = "pan_tilt")
      by (destruct Hin as [<- | [<- | [<- | []]]]; reflexivity).
    rewrite (query_on_completion queries answers high_res_params very_high_res_params
               hex_to_int visca_to_degree f subcmd payload rest t h fuel);
      [| destruct Hin as [<- | [<- | [<- | []]]]; discriminate
       | now rewrite Hlook | lia | assumption].
    rewrite Hlook, unpack_completion
      by (destruct payload; [simpl in Hlen; lia | discriminate]).
    replace (String.length payload <=? 1)%nat with false
      by (symmetry; apply Nat.leb_gt; lia).
    unfold_monad. cbv beta iota. unfold_monad. cbv beta iota.
    rewrite translate_no_table by assumption.
    cbn [String.eqb Ascii.eqb Bool.eqb orb slice].
    unfold mbind, result_bind.
    rewrite drop_0, <- fmap_drop, <- !fmap_take.
    change (4 - 0)%nat with 4%nat. change (8 - 4)%nat with 4%nat.
    rewrite Hpan, Htilt, Hpd, Htd. reflexivity. }
  eexists. split; [apply Hrun; assumption |].
  unfold pan, tilt. unfold_monad.
  rewrite Hrun by (simpl; auto). split; reflexivity.
Qed.

Lemma pan_tilt_decoding_witness :
  exists s' : Serial,
    sample_query 1 (Some "tilt")
      (line (incoming (String (xchr 0x90) (String (xchr 0x50)
                         (bytes [0; 1; 2; 3; 0xF; 0xE; 0xD; 0xC] +:+ bytes [0xFF])))
             ++ []) [] [])
    = Returns (PyList [PyList (PyStr <$> ["00"; "01"; "02"; "03"]);
                       PyList (PyStr <$> ["0f"; "0e"; "0d"; "0c"])]) s' /\
    pan sample_queries ∅ ∅ ∅ sample_hex_to_int sample_visca_to_degree 1
      (line (incoming (String (xchr 0x90) (String (xchr 0x50)
                         (bytes [0; 1; 2; 3; 0xF; 0xE; 0xD; 0xC] +:+ bytes [0xFF])))
             ++ []) [] [])
    = Returns (PyList (PyStr <$> ["00"; "01"; "02"; "03"])) s' /\
    tilt sample_queries ∅ ∅ ∅ sample_hex_to_int sample_visca_to_degree 1
      (line (incoming (String (xchr 0x90) (String (xchr 0x50)
                         (bytes [0; 1; 2; 3; 0xF; 0xE; 0xD; 0xC] +:+ bytes [0xFF])))
             ++ []) [] [])
    = Returns (PyList (PyStr <$> ["0f"; "0e"; "0d"; "0c"])) s'.
Proof.
  apply (pan_tilt_decoding sample_queries ∅ ∅ ∅ sample_hex_to_int sample_visca_to_degree
           "tilt" (bytes [0x06; 0x12]) (bytes [0; 1; 2; 3; 0xF; 0xE; 0xD; 0xC])
           (PyList (PyStr <$> ["00"; "01"; "02"; "03"]))
           (PyList (PyStr <$> ["0f"; "0e"; "0d"; "0c"]))
           (PyList (PyStr <$> ["00"; "01"; "02"; "03"]))
           (PyList (PyStr <$> ["0f"; "0e"; "0d"; "0c"])) [] [] [] 0);
    first [reflexivity | apply not_elem_of_empty | (simpl; auto; fail) | vm_compute; lia ].
Defined.

(** X21: when the table of queries has no entry [pan_tilt], the getters [pan]
    and [tilt] do not return the [False] of [_query]: they index it and raise
    [TypeError], the line being untouched. *)
Theorem pan_tilt_getters_without_code
    (queries : gmap string string) (answers : gmap string (gmap Z value))
    (high_res_params very_high_res_params : gset string)
    (hex_to_int : value -> exn + value)
    (visca_to_degree : value -> string -> exn + value)
    (fuel : nat) (s : Serial) :
  queries !! "pan_tilt" = None ->
  pan queries answers high_res_params very_high_res_params hex_to_int
    visca_to_degree fuel s = Raises TypeError s /\
  tilt queries answers high_res_params very_high_res_params hex_to_int
    visca_to_degree fuel s = Raises TypeError s.
Proof.
  intros Hq. unfold pan, tilt. unfold_monad.
  assert (Hrun : _query queries answers high_res_params very_high_res_params hex_to_int
                   visca_to_degree fuel (Some "pan_tilt") s = Returns (PyBool false) s).
  { destruct fuel; cbn [_query String.eqb Ascii.eqb Bool.eqb orb]; now rewrite Hq. }
  rewrite Hrun. split; reflexivity.
Qed.

Lemma pan_tilt_getters_without_code_witness :
  pan {[ "power" := bytes [0x04; 0x00] ]} ∅ ∅ ∅ sample_hex_to_int
    sample_visca_to_degree 2 silent_line = Raises TypeError silent_line /\
  tilt {[ "power" := bytes [0x04; 0x00] ]} ∅ ∅ ∅ sample_hex_to_int
    sample_visca_to_degree 2 silent_line = Raises TypeError silent_line.
Proof.
  apply (pan_tilt_getters_without_code {[ "power" := bytes [0x04; 0x00] ]} ∅ ∅ ∅
           sample_hex_to_int sample_visca_to_degree 2 silent_line).
  reflexivity.
Defined.

(** X22: the decoder of the colour gain and of the colour hue takes the
    fourth group of the reply without looking at its length: a payload of
    one byte, which was unpacked as an integer, raises [TypeError], and a
    payload of two or three bytes raises [IndexError]. *)
Theorem scaled_reply_too_short
    (queries : gmap string string) (answers : gmap string (gmap Z value))
    (high_res_params very_high_res_params : gset string)
    (hex_to_int : value -> exn + value)
    (visca_to_degree : value -> string -> exn + value)
    (function subcmd payload : string)
    (rest : list (option ascii)) (t : list string) (h : list event) (fuel : nat) :
  function = "color_gain" \/ function = "color_hue" ->
  queries !! function = Some subcmd ->
  function ∉ high_res_params ->
  function ∉ very_high_res_params ->
  answers !! function = None ->
  (1 <= String.length payload <= 3)%nat ->
  terminator_free payload = true ->
  _query queries answers high_res_params very_high_res_params hex_to_int
    visca_to_degree (S fuel) (Some function)
    (line (incoming (String (xchr 0x90) (String (xchr 0x50) (payload +:+ bytes [0xFF])))
           ++ rest) t h)
  = Raises (if (String.length payload =? 1)%nat then TypeError else IndexError)
      (after_exchange (String (xchr 0x81) ((bytes [0x09] +:+ subcmd) +:+ bytes [0xFF]))
         (String (xchr 0x90) (String (xchr 0x50) (payload +:+ bytes [0xFF]))) rest t h).
Proof.
  intros Hf Hq Hh Hv Ha Hlen Hfree.
  assert (Hlook : looked_up function = function) by (now destruct Hf as [-> | ->]).
  rewrite (query_on_completion queries answers high_res_params very_high_res_params
             hex_to_int visca_to_degree function subcmd payload rest t h fuel);
    [| destruct Hf as [-> | ->]; discriminate | now rewrite Hlook | lia | assumption].
  rewrite Hlook, unpack_completion
    by (destruct payload; [simpl in Hlen; lia | discriminate]).
  assert (Htr : forall reply : value,
            translate answers high_res_params very_high_res_params hex_to_int
              visca_to_degree function reply
            = (group ← index reply 3;
               reply ← int16_of group;
               let reply := str_of_int (scale reply 0 14 60 200) in
               if (function =? "color_gain")%string then inr (PyStr (reply +:+ "%"))
               else inr (PyStr (reply +:+ degree_sign)))).
  { intros reply. rewrite translate_no_table by assumption.
    now destruct Hf as [-> | ->]. }
  destruct payload as [|c1 [|c2 [|c3 [|c4 payload]]]];
    cbn [String.length] in Hlen; try lia;
    cbn [String.length Nat.leb Nat.eqb];
    unfold_monad; cbv beta iota; unfold_monad; cbv beta iota;
    rewrite Htr; reflexivity.
Qed.

Lemma scaled_reply_too_short_witness :
  sample_query 1 (Some "color_gain")
    (line (incoming (String (xchr 0x90) (String (xchr 0x50) (bytes [0x00; 0x0E] +:+ bytes [0xFF])))
           ++ []) [] [])
  = Raises (if Nat.eqb (String.length (bytes [0x00; 0x0E])) 1 then TypeError else IndexError)
      (after_exchange
         (String (xchr 0x81) ((bytes [0x09] +:+ bytes [0x04; 0x49]) +:+ bytes [0xFF]))
         (String (xchr 0x90) (String (xchr 0x50) (bytes [0x00; 0x0E] +:+ bytes [0xFF])))
         [] [] []).
Proof.
  apply (scaled_reply_too_short sample_queries ∅ ∅ ∅ sample_hex_to_int
           sample_visca_to_degree "color_gain" (bytes [0x04; 0x49]) (bytes [0x00; 0x0E])
           [] [] [] 0);
    first [reflexivity | apply not_elem_of_empty | (left; reflexivity) | vm_compute; lia].
Defined.

(** ** [hex_unpack] *)

(** X23: [hex_unpack] cuts a text into groups of two characters, a last
    group of one character when the length is odd: put end to end, the
    groups it appends to its list give the text back, none is longer than
    two characters, and it returns the list exactly when the text has more
    than two characters. *)
Theorem hex_unpack_cuts_in_pairs (value : string) (listt : list string) :
  exists groups : list string,
    fst (hex_unpack value listt) = listt ++ groups /\
    joined groups = value /\
    Forall (fun group => (String.length group <= 2)%nat) groups /\
    length groups = Nat.max 1 (Nat.div2 (S (String.length value))) /\
    snd (hex_unpack value listt)
    = if (2 <? String.length value)%nat then Some (listt ++ groups) else None.
Proof.
  assert (Hboth : forall text : string,
            (forall listt, exists groups,
                fst (hex_unpack text listt) = listt ++ groups /\
                joined groups = text /\
                Forall (fun group => (String.length group <= 2)%nat) groups /\
                length groups = Nat.max 1 (Nat.div2 (S (String.length text))) /\
                snd (hex_unpack text listt)
                = if (2 <? String.length text)%nat then Some (listt ++ groups) else None) /\
            (forall (c : ascii) listt, exists groups,
                fst (hex_unpack (String c text) listt) = listt ++ groups /\
                joined groups = String c text /\
                Forall (fun group => (String.length group <= 2)%nat) groups /\
                length groups = Nat.max 1 (Nat.div2 (S (String.length (String c text)))) /\
                snd (hex_unpack (String c text) listt)
                = if (2 <? String.length (String c text))%nat
                  then Some (listt ++ groups) else None)).
  { clear. induction text as [|c0 text [IH0 IH1]].
    - split.
      + intros listt. exists [""].
        split; [reflexivity |]. split; [reflexivity |].
        split; [constructor; [simpl; lia | constructor] |]. split; reflexivity.
      + intros c listt. exists [String c ""].
        split; [reflexivity |]. split; [reflexivity |].
        split; [constructor; [simpl; lia | constructor] |]. split; reflexivity.
    - split; [exact (IH1 c0) |].
      intros c listt. destruct text as [|c1 text].
      + exists [String c (String c0 "")].
        split; [reflexivity |]. split; [reflexivity |].
        split; [constructor; [simpl; lia | constructor] |]. split; reflexivity.
      + destruct (IH0 (listt ++ [String c (String c0 "")]))
          as (groups & Hfst & Hjoin & Hall & Hlen & _).
        exists (String c (String c0 "") :: groups).
        change (hex_unpack (String c (String c0 (String c1 text))) listt)
          with (fst (hex_unpack (String c1 text) (listt ++ [String c (String c0 "")])),
                Some (fst (hex_unpack (String c1 text) (listt ++ [String c (String c0 "")])))).
        cbn [fst snd]. rewrite Hfst, <- app_assoc. cbn [app].
        split; [reflexivity |].
        split; [unfold joined in *; cbn [fold_right]; rewrite Hjoin; reflexivity |].
        split; [constructor; [simpl; lia | exact Hall] |].
        split.
        * cbn [length]. rewrite Hlen. cbn [String.length Nat.div2].
          destruct (Nat.div2 (S (String.length text))); simpl; lia.
        * cbn [String.length]. reflexivity. }
  apply Hboth.
Qed.

(** ** What [_come_back] returns, and what it writes *)

Lemma send_packet_reply_facts (data : string) (r : Z) (s s' : Serial) (p : string) :
  _send_packet data r s = Returns (Some p) s' ->
  slice_last p = bytes [0xFF] /\
  (1 <= String.length p <= 16)%nat /\
  terminator_free (slice_init p) = true.
Proof.
  intros Hrun. destruct (send_packet_some_inv data r s s' p Hrun) as (Hm & d & Hp).
  destruct (send_packet_spec data r s d Hm Hp)
    as (reply & s1 & d1 & Hrun1 & Hport1 & _ & _ & _ & Hreply).
  rewrite Hrun in Hrun1. injection Hrun1 as <- <-.
  destruct (Hreply p eq_refl) as (_ & H1 & H2 & H3 & _). auto.
Qed.

Lemma completion_frame_length (r : string) :
  startswith r (bytes [0x90; 0x50]) = true ->
  slice_last r = bytes [0xFF] ->
  (3 <= String.length r)%nat.
Proof.
  intros Hsw Hlast. unfold startswith in Hsw.
  destruct r as [|c1 [|c2 [|c3 r]]]; cbn [String.length]; try lia;
    cbn [bytes fold_right String.prefix] in Hsw; try discriminate Hsw.
  - destruct (ascii_dec (xchr 144) c1); discriminate Hsw.
  - destruct (ascii_dec (xchr 144) c1); [| discriminate Hsw].
    destruct (ascii_dec (xchr 80) c2) as [<- |]; [| discriminate Hsw].
    cbn in Hlast. discriminate Hlast.
Qed.

(** X24: whatever the line and the state of the lock, a value that
    [_come_back] returns is [None], [False], or a completion frame: a text of
    3 to 16 bytes that begins with [90 50], ends in [FF] and holds [FF]
    nowhere else, so that [reply[2:-1]] in [_query] is its payload. *)
Theorem come_back_returns_a_completion (fuel : nat) (query : string) (s s' : Serial)
    (v : value) :
  _come_back fuel query s = Returns v s' ->
  v = PyNone \/ v = PyBool false \/
  exists r : string,
    v = PyStr r /\
    startswith r (bytes [0x90; 0x50]) = true /\
    slice_last r = bytes [0xFF] /\
    (3 <= String.length r <= 16)%nat /\
    terminator_free (slice_init r) = true.
Proof.
  assert (Hstep : forall k : M value,
    (forall s1 v1 s2, k s1 = Returns v1 s2 -> v1 = PyNone) ->
    (reply ← _send_packet query 1;
     if reply_is reply (bytes [0x90; 0x60; 0x03; 0xFF]) then k
     else match reply with
          | None => raise AttributeError
          | Some r =>
              if startswith r (bytes [0x90; 0x50]) then mret (PyStr r)
              else if (r =? bytes [0x90; 0x60; 0x02; 0xFF])%string then mret (PyBool false)
              else mret PyNone
          end) s = Returns v s' ->
    v = PyNone \/ v = PyBool false \/
    exists r : string,
      v = PyStr r /\
      startswith r (bytes [0x90; 0x50]) = true /\
      slice_last r = bytes [0xFF] /\
      (3 <= String.length r <= 16)%nat /\
      terminator_free (slice_init r) = true).
  { intros k Hk. unfold_monad.
    destruct (_send_packet query 1 s) as [reply s1 | | |] eqn:Hsend; try discriminate.
    destruct (reply_is reply (bytes [144; 96; 3; 255])).
    { intros Hrun. left. exact (Hk _ _ _ Hrun). }
    destruct reply as [r |]; [| discriminate].
    destruct (startswith r (bytes [144; 80])) eqn:Hsw.
    - intros [= <- <-]. right. right. exists r.
      destruct (send_packet_reply_facts query 1 s s1 r Hsend) as (H1 & H2 & H3).
      pose proof (completion_frame_length r Hsw H1).
      repeat split; auto; lia.
    - destruct (r =? bytes [144; 96; 2; 255])%string; intros [= <- <-]; auto. }
  destruct fuel as [|fuel]; cbn [_come_back]; apply Hstep.
  - discriminate.
  - intros s1 v1 s2. unfold_monad.
    destruct (_come_back fuel query s1); try discriminate. now intros [= <- _].
Qed.

Lemma come_back_returns_a_completion_witness :
  PyStr (bytes [0x90; 0x50; 0x02; 0xFF]) = PyNone \/
  PyStr (bytes [0x90; 0x50; 0x02; 0xFF]) = PyBool false \/
  exists r : string,
    PyStr (bytes [0x90; 0x50; 0x02; 0xFF]) = PyStr r /\
    startswith r (bytes [0x90; 0x50]) = true /\
    slice_last r = bytes [0xFF] /\
    (3 <= String.length r <= 16)%nat /\
    terminator_free (slice_init r) = true.
Proof.
  apply (come_back_returns_a_completion 0 (bytes [0x09; 0x04; 0x00])
           (connected (incoming (bytes [0x90; 0x50; 0x02; 0xFF])))
           (after_exchange power_inquiry (bytes [0x90; 0x50; 0x02; 0xFF]) [] [] [])).
  vm_compute. reflexivity.
Defined.




(** ** A reply without terminator, and the first command after [open] *)

(** A text that holds no [0xff] does not end in [0xff]. *)
Lemma slice_last_terminator_free (text : string) :
  terminator_free text = true ->
  (slice_last text =? bytes [0xFF])%string = false.
Proof.
  induction text as [|c text IH]; intros Hfree; [reflexivity |].
  unfold terminator_free in Hfree. cbn [list_ascii_of_string forallb] in Hfree.
  apply andb_true_iff in Hfree as [Hc Hfree]. apply negb_true_iff in Hc.
  destruct text as [|c' text]; [| exact (IH Hfree)].
  cbn [slice_last]. apply String.eqb_neq. intros [= ->].
  unfold terminator in Hc. rewrite ord_xchr in Hc by lia. discriminate Hc.
Qed.

(** X26: a reply of 16 bytes none of which is [0xff] is read to the byte
    ceiling and thrown away: [_send_packet] returns [None], having taken
    exactly these 16 bytes from the line, and the lock is released, as it
    is after a reply that is kept. *)
Theorem send_packet_unterminated_reply (data junk : string) (r : Z)
    (rest : list (option ascii)) (t : list string) (h : list event) :
  String.length junk = 16%nat ->
  terminator_free junk = true ->
  _send_packet data r (line (incoming junk ++ rest) t h)
  = Returns None
      (mk_Serial false
         (Some (mk_pyserial rest 0 (t ++ [String (xchr (header r)) (data +:+ bytes [0xFF])])))
         (h ++ [Acquire; Sent (String (xchr (header r)) (data +:+ bytes [0xFF]));
                Recv (Some junk); Release])).
Proof.
  intros Hlen Hfree.
  unfold _send_packet. rewrite encode_ok. unfold_monad. cbv beta iota. unfold_monad.
  unfold acquire, _write_packet, port_write, dev_write, recv_packet, line.
  cbn [mutex port history in_waiting rx tx Nat.eqb]. cbv beta iota.
  unfold_monad. cbn [mutex port history in_waiting rx tx]. cbv beta iota.
  cbn [mutex port history in_waiting rx tx].
  rewrite (recv_loop_ceiling junk 16 "" rest 0 _ Hlen Hfree), str_app_nil_l.
  cbn [mutex port history Nat.sub].
  replace (junk =? "")%string with false
    by (symmetry; apply String.eqb_neq; intros ->; discriminate Hlen).
  cbn [negb]. unfold release, validate. cbn [mutex port history].
  rewrite (slice_last_terminator_free junk Hfree). cbn [negb].
  rewrite <- !app_assoc. reflexivity.
Qed.

Lemma send_packet_unterminated_reply_witness :
  _send_packet power_on 1
    (line (incoming (bytes [1; 2; 3; 4; 5; 6; 7; 8; 9; 10; 11; 12; 13; 14; 15; 16])
           ++ incoming (ack 1)) [] [])
  = Returns None
      (mk_Serial false
         (Some (mk_pyserial (incoming (ack 1)) 0
                  ([] ++ [String (xchr (header 1)) (power_on +:+ bytes [0xFF])])))
         ([] ++ [Acquire; Sent (String (xchr (header 1)) (power_on +:+ bytes [0xFF]));
                 Recv (Some (bytes [1; 2; 3; 4; 5; 6; 7; 8; 9; 10; 11; 12; 13; 14; 15; 16]));
                 Release])).
Proof.
  apply (send_packet_unterminated_reply power_on
           (bytes [1; 2; 3; 4; 5; 6; 7; 8; 9; 10; 11; 12; 13; 14; 15; 16]) 1
           (incoming (ack 1)) [] []);
    reflexivity.
Defined.

(** X27: what sits in the input buffer when the port is opened is thrown
    away by [open]: the first command sent after it gets as its reply the
    first frame that arrives after those bytes. *)
Theorem open_then_send (stale : list (option ascii)) (data body : string) (r : Z)
    (rest : list (option ascii)) :
  (String.length body < 16)%nat ->
  terminator_free body = true ->
  exists s1 s2 : Serial,
    open (Some (mk_pyserial (stale ++ incoming (body +:+ bytes [0xFF]) ++ rest)
                  (length stale) []))
      Serial_init
    = Returns tt s1 /\
    _send_packet data r s1 = Returns (Some (body +:+ bytes [0xFF])) s2 /\
    mutex s2 = false /\
    rx <$> port s2 = Some rest.
Proof.
  intros Hl Hf.
  exists (line (incoming (body +:+ bytes [0xFF]) ++ rest) [] [Acquire; Release]).
  eexists. split; [| split; [| split]].
  - unfold open, acquire, release. unfold_monad.
    cbn [mutex port history Serial_init fmap option_fmap option_map flushInput
         rx in_waiting tx app].
    unfold flushInput. cbn [rx in_waiting tx]. now rewrite drop_app_length.
  - exact (send_packet_reply data r
             (line (incoming (body +:+ bytes [0xFF]) ++ rest) [] [Acquire; Release])
             (mk_pyserial (incoming (body +:+ bytes [0xFF]) ++ rest) 0 []) body rest
             eq_refl eq_refl eq_refl eq_refl Hl Hf).
  - reflexivity.
  - reflexivity.
Qed.

Lemma open_then_send_witness :
  exists s1 s2 : Serial,
    open (Some (mk_pyserial (incoming (bytes [0x51; 0xFF])
                             ++ incoming (bytes [0x90; 0x41] +:+ bytes [0xFF]) ++ [])
                  (length (incoming (bytes [0x51; 0xFF]))) []))
      Serial_init
    = Returns tt s1 /\
    _send_packet power_on 1 s1 = Returns (Some (bytes [0x90; 0x41] +:+ bytes [0xFF])) s2 /\
    mutex s2 = false /\
    rx <$> port s2 = Some [].
Proof.
  apply (open_then_send (incoming (bytes [0x51; 0xFF])) power_on (bytes [0x90; 0x41]) 1 []).
  - vm_compute. lia.
  - reflexivity.
Defined.
